(** * Question generation, validation and selection pipeline

    A shallow embedding of the question pipeline of [demo_content.py]:
    [verify_column_references], [validate_questions_with_llm],
    [test_questions_against_semantic_model], [select_best_questions] and
    the orchestration in [generate_contextual_questions].

    Conventions of the embedding.
    - A question dictionary is the record [Question]; the keys the code
      reads with [q.get(...)] or tests with [in] are optional fields.
    - Python [int] values are [Z]; list lengths and counts are [nat].
    - Every call to the text-generation service is a read from a script of
      replies held in a [World]; a call on an exhausted script raises.
    - A text is a [string] of bytes.  [str.upper] on column names is a
      parameter, [str_upper] of [Library]; [Py.strip], [Py.upper] and the
      functions of [Field] work on bytes and are those of Python on ASCII
      text ([ascii_text]).
    - Prompt texts, wall-clock timings and the UI calls of streamlit are not
      part of the embedding: no result of the pipeline depends on them. *)

From Stdlib Require Import ZArith QArith Lia Ascii String.
From stdpp Require Import base option list strings gmap sets pretty.
From Equations Require Import Equations.
Close Scope Q_scope.

(** ** Python primitives *)

Module Py.

(** [l[:k]] for a Python integer [k]: a negative bound counts from the end. *)
Definition slice_to {A} (k : Z) (l : list A) : list A :=
  if decide (0 ≤ k)%Z then take (Z.to_nat k) l
  else take (length l - Z.to_nat (- k)) l.

(** [l[k:]] for a Python integer [k]. *)
Definition slice_from {A} (k : Z) (l : list A) : list A :=
  if decide (0 ≤ k)%Z then drop (Z.to_nat k) l
  else drop (length l - Z.to_nat (- k)) l.

(** [len(l)] as a Python integer. *)
Definition len {A} (l : list A) : Z := Z.of_nat (length l).

(** Truth value of a list: [not l] holds for the empty list only. *)
Definition falsy {A} (l : list A) : bool :=
  match l with [] => true | _ :: _ => false end.

(** [int(x * 0.1)] and [int(x * 0.6)].  The double nearest to 0.1 lies above
    1/10 and the one nearest to 0.6 lies below 3/5 by less than half a unit
    in the last place, so for every integer of list-length size the rounded
    product truncates to the exact quotient (towards zero). *)
Definition int_mul_0_1 (x : Z) : Z := Z.quot x 10.
Definition int_mul_0_6 (x : Z) : Z := Z.quot (3 * x) 5.

(** [str.upper] on the ASCII letters; other bytes are left as they are. *)
Definition upper_ascii (c : ascii) : ascii :=
  let n := nat_of_ascii c in
  if (97 <=? n)%nat && (n <=? 122)%nat then ascii_of_nat (n - 32) else c.

Fixpoint upper (s : string) : string :=
  match s with
  | EmptyString => EmptyString
  | String c s' => String (upper_ascii c) (upper s')
  end.

(** The ASCII characters removed by [str.strip()]: tab, line feed, vertical
    tab, form feed, carriage return, the separators 28 to 31 and the space. *)
Definition is_space (c : ascii) : bool :=
  let n := nat_of_ascii c in
  ((9 <=? n)%nat && (n <=? 13)%nat) || ((28 <=? n)%nat && (n <=? 32)%nat).

Fixpoint lstrip (s : string) : string :=
  match s with
  | EmptyString => EmptyString
  | String c s' => if is_space c then lstrip s' else s
  end.

Definition rstrip (s : string) : string :=
  String.rev (lstrip (String.rev s)).

Definition strip (s : string) : string := rstrip (lstrip s).

Fixpoint startswith (p s : string) : bool :=
  match p, s with
  | EmptyString, _ => true
  | String a p', String b s' => bool_decide (a = b) && startswith p' s'
  | String _ _, EmptyString => false
  end.

Definition endswith (p s : string) : bool :=
  startswith (String.rev p) (String.rev s).

(** [s[n:]] and [s[:-n]] on strings. *)
Fixpoint str_drop (n : nat) (s : string) : string :=
  match n, s with
  | O, _ => s
  | S n', String _ s' => str_drop n' s'
  | S _, EmptyString => EmptyString
  end.

Definition str_drop_end (n : nat) (s : string) : string :=
  String.rev (str_drop n (String.rev s)).

(** [p in s] on strings. *)
Fixpoint contains (p s : string) : bool :=
  startswith p s ||
  match s with
  | EmptyString => false
  | String _ s' => contains p s'
  end.

End Py.

(** ** Data model *)

(** A question dictionary.  [text] is read with [q['text']]; the other keys
    are read with [q.get] or tested with [in], so they may be absent. *)
Record Question := mkQuestion {
  text : string;
  difficulty : option string;
  category : option string;
  referenced_columns : option (list string);
  source : option string;
  retry_attempt : option nat
}.

#[global] Instance Question_eq_dec : EqDecision Question.
Proof. solve_decision. Defined.

(** A column entry of a table context; [col.get('name', '')] reads [col_name],
    so a column without a name has the empty one. *)
Record ColumnContext := mkColumn {
  col_name : string;
  col_type : string
}.

(** A table entry of [rich_table_contexts]; [ctx.get('columns', [])] reads
    [columns]. *)
Record TableContext := mkTable {
  tbl_name : string;
  row_count : nat;
  columns : list ColumnContext
}.

#[global] Instance ColumnContext_eq_dec : EqDecision ColumnContext.
Proof. solve_decision. Defined.
#[global] Instance TableContext_eq_dec : EqDecision TableContext.
Proof. solve_decision. Defined.

Definition is_search (q : Question) : Prop := category q = Some "search".
Definition is_analytics (q : Question) : Prop := category q = Some "analytics".
Definition has_difficulty (d : string) (q : Question) : Prop :=
  difficulty q = Some d.

#[global] Instance is_search_dec q : Decision (is_search q).
Proof. unfold is_search. apply _. Defined.
#[global] Instance is_analytics_dec q : Decision (is_analytics q).
Proof. unfold is_analytics. apply _. Defined.
#[global] Instance has_difficulty_dec d q : Decision (has_difficulty d q).
Proof. unfold has_difficulty. apply _. Defined.

(** ** External services *)

(** A parsed JSON document, as [json.loads] returns it.  [JInt] is a Python
    [int], [JFloat] a finite [float] (the non-finite ones fail every
    comparison with a bound, like a finite value out of range); the members
    of [JObj] are the items of the resulting [dict], with distinct keys in
    insertion order. *)
#[warnings="-register-all"]
Inductive json :=
| JNull
| JBool (b : bool)
| JInt (z : Z)
| JFloat (x : Q)
| JStr (s : string)
| JArr (items : list json)
| JObj (members : list (string * json)).

(** Library functions the pipeline calls and this repository does not define:
    [json.loads] ([None] stands for [JSONDecodeError]), the floating-point
    product [int(n * 0.7)], which is not the exact quotient for every [n], and
    [str.upper] on the column names, which come from the schema and from the
    text-generation service and may hold any letter of Unicode. *)
Class Library := {
  json_loads : string → option json;
  int_mul_0_7 : Z → Z;
  str_upper : string → string
}.

(** Outcome of [call_cortex_with_retry(prompt, session, error_handler)]. *)
Inductive completion :=
| CallRaises
| Completion (response : option string).

(** Outcome of a question-generation request: the [session.sql(...).collect()]
    call, [re.search(r'\[.*\]', ...)] and [json.loads] of the match.
    [GenRaises] covers every exception raised in the enclosing [try]. *)
Inductive generation :=
| GenRaises
| GenNoArray
| GenQuestions (questions_data : list Question).

(** Outcome of the yes/no query of the semantic tester. *)
Inductive analyst_reply :=
| AnalystRaises
| AnalystNoRows
| AnalystSays (can_answer : string).

(** The replies the services will give during one run, in call order. *)
Record World := mkWorld {
  validator_replies : list completion;
  generator_replies : list generation;
  analyst_replies : list analyst_reply
}.

(** Computations that call the services. *)
Definition Service (A : Type) : Type := World → A * World.

#[global] Instance service_ret : MRet Service := λ A a w, (a, w).

#[global] Instance service_bind : MBind Service :=
  λ A B k m w, let '(a, w') := m w in k a w'.

Definition call_cortex_with_retry : Service completion :=
  λ w, match validator_replies w with
       | [] => (CallRaises, w)
       | r :: rest => (r, mkWorld rest (generator_replies w) (analyst_replies w))
       end.

Definition cortex_complete_questions : Service generation :=
  λ w, match generator_replies w with
       | [] => (GenRaises, w)
       | g :: rest => (g, mkWorld (validator_replies w) rest (analyst_replies w))
       end.

Definition cortex_can_answer : Service analyst_reply :=
  λ w, match analyst_replies w with
       | [] => (AnalystRaises, w)
       | a :: rest => (a, mkWorld (validator_replies w) (generator_replies w) rest)
       end.

(** ** ColumnReferenceVerifier: [verify_column_references] *)

(** The loop that builds [all_columns]: upper-cased names, empty ones skipped. *)
Definition add_table_columns `{Library} (acc : gset string) (ctx : TableContext)
    : gset string :=
  foldl (λ acc col,
           let name := str_upper (col_name col) in
           if decide (name = "") then acc else acc ∪ {[ name ]})
        acc (columns ctx).

Definition all_columns `{Library} (rich_table_contexts : list TableContext)
    : gset string :=
  foldl add_table_columns ∅ rich_table_contexts.

(** The test made on one question inside the loop over [questions]. *)
Definition columns_verified `{Library} (available : gset string) (q : Question)
    : bool :=
  match referenced_columns q with
  | None => true
  | Some cols => forallb (λ col, bool_decide (str_upper col ∈ available)) cols
  end.

Definition verify_column_references `{Library}
    (questions : list Question) (rich_table_contexts : list TableContext)
    : list Question :=
  if Py.falsy rich_table_contexts || Py.falsy questions then questions
  else filter (λ q, columns_verified (all_columns rich_table_contexts) q = true)
              questions.

(** ** AnswerabilityValidator: [validate_questions_with_llm] *)

(** The entries of [debug_info] that do not hold a time or a response
    preview.  The bookkeeping written to [st.session_state] (schema
    comparison, synonym metrics) reads the questions and changes none of the
    values returned, and is left out.  [fallback_used] is [false] when the
    key is absent, which is how [final_attempt.get('fallback_used')] reads
    it.  The text of a caught exception is not part of [error_message]. *)
Record DebugInfo := mkDebug {
  total_questions : nat;
  validation_success : bool;
  error_message : option string;
  validated_count : nat;
  fallback_used : bool;
  fallback_count : option nat
}.

(** Result of an expression evaluated inside the [try] block. *)
Inductive try_result (A : Type) :=
| Done (a : A)
| Exn.
Arguments Done {A} a.
Arguments Exn {A}.

(** The fence removal before [json.loads]. *)
Definition clean_response (response : string) : string :=
  let response := Py.strip response in
  let response :=
    if Py.startswith "```json" response then Py.str_drop 7 response else response in
  let response :=
    if Py.startswith "```" response then Py.str_drop 3 response else response in
  let response :=
    if Py.endswith "```" response then Py.str_drop_end 3 response else response in
  Py.strip response.

Fixpoint dict_get (key : string) (members : list (string * json)) : option json :=
  match members with
  | [] => None
  | (k, v) :: rest => if decide (k = key) then Some v else dict_get key rest
  end.

(** [result.get('valid_question_numbers', [])]: only a [dict] has [get]. *)
Definition get_valid_nums (result : json) : try_result json :=
  match result with
  | JObj members => Done (default (JArr []) (dict_get "valid_question_numbers" members))
  | _ => Exn
  end.

(** The values [for num in valid_nums] runs through: the items of a list, the
    characters of a string, the keys of a dict; other values are not iterable. *)
Definition iterate (valid_nums : json) : try_result (list json) :=
  match valid_nums with
  | JArr items => Done items
  | JStr s => Done (map (λ c, JStr (String c EmptyString)) (list_ascii_of_string s))
  | JObj members => Done (map (λ kv, JStr kv.1) members)
  | _ => Exn
  end.

(** [analytics_questions[num - 1]] under the guard
    [1 <= num <= len(analytics_questions)], for an integer [num]. *)
Definition nth_checked (analytics_questions : list Question) (num : Z)
    : try_result (option Question) :=
  if decide (1 ≤ num ∧ num ≤ Py.len analytics_questions)%Z then
    match analytics_questions !! Z.to_nat (num - 1) with
    | Some q => Done (Some q)
    | None => Exn
    end
  else Done None.

(** One turn of the loop over [valid_nums].  [True] and [False] are the
    integers 1 and 0; a float inside the range fails as a list index; a value
    of any other type fails in the comparison. *)
Definition pick_question (analytics_questions : list Question) (num : json)
    : try_result (option Question) :=
  match num with
  | JInt z => nth_checked analytics_questions z
  | JBool b => nth_checked analytics_questions (if b then 1 else 0)%Z
  | JFloat x =>
      if Qle_bool 1 x && Qle_bool x (inject_Z (Py.len analytics_questions))
      then Exn else Done None
  | _ => Exn
  end.

Fixpoint collect_validated (analytics_questions : list Question)
    (valid_nums : list json) (validated_analytics : list Question)
    : try_result (list Question) :=
  match valid_nums with
  | [] => Done validated_analytics
  | num :: rest =>
      match pick_question analytics_questions num with
      | Exn => Exn
      | Done None => collect_validated analytics_questions rest validated_analytics
      | Done (Some q) =>
          collect_validated analytics_questions rest (validated_analytics ++ [q])
      end
  end.

(** Lines 2043 to 2049: from the parsed verdict to [validated_analytics]. *)
Definition read_verdict (analytics_questions : list Question) (result : json)
    : try_result (list Question) :=
  match get_valid_nums result with
  | Exn => Exn
  | Done valid_nums =>
      match iterate valid_nums with
      | Exn => Exn
      | Done items => collect_validated analytics_questions items []
      end
  end.

(** The three fallback exits share their result: all analytics questions,
    then the search questions. *)
Definition fallback_exit (questions analytics_questions validated_search : list Question)
    (message : string) : list Question * DebugInfo :=
  let combined := analytics_questions ++ validated_search in
  (combined,
   mkDebug (length questions) false (Some message) (length combined) true
           (Some (length analytics_questions))).

(** [not response or not response.strip()] *)
Definition blank_response (response : option string) : bool :=
  match response with
  | None => true
  | Some r => bool_decide (r = "") || bool_decide (Py.strip r = "")
  end.

Definition validate_questions_with_llm `{Library}
    (questions : list Question) (rich_table_contexts : list TableContext)
    : Service (list Question * DebugInfo) :=
  if Py.falsy questions || Py.falsy rich_table_contexts then
    mret (questions,
         mkDebug (length questions) true
                 (Some "No validation needed (empty questions or contexts)")
                 (length questions) false None)
  else
    let search_questions := filter is_search questions in
    let analytics_questions := filter (λ q, ¬ is_search q) questions in
    let validated_search := search_questions in
    if Py.falsy analytics_questions then
      mret (questions,
           mkDebug (length questions) true
                   (Some ("All " +:+ pretty (length search_questions) +:+
                          " questions are search-category (auto-validated)"))
                   (length questions) false None)
    else
      reply ← call_cortex_with_retry;
      mret match reply with
          | CallRaises =>
              fallback_exit questions analytics_questions validated_search
                            "Unexpected error: "
          | Completion response =>
              if blank_response response then
                fallback_exit questions analytics_questions validated_search
                              "LLM returned empty response"
              else
                match json_loads (clean_response (default "" response)) with
                | None =>
                    fallback_exit questions analytics_questions validated_search
                                  "JSON parse error: "
                | Some result =>
                    match read_verdict analytics_questions result with
                    | Exn =>
                        fallback_exit questions analytics_questions validated_search
                                      "Unexpected error: "
                    | Done validated_analytics =>
                        let combined := validated_analytics ++ validated_search in
                        (combined,
                         mkDebug (length questions) true None (length combined)
                                 false None)
                    end
                end
          end.

(** ** SemanticAnswerabilityTester: [test_questions_against_semantic_model] *)

(** [semantic_model_info] is an optional dictionary; only the presence of the
    key [view_name] and the emptiness of the dictionary are inspected. *)
Definition SemanticModelInfo : Type := option (gmap string string).

(** Truth value of [semantic_model_info]: [None] and [{}] are false. *)
Definition model_given (semantic_model_info : SemanticModelInfo) : bool :=
  match semantic_model_info with
  | None => false
  | Some info => bool_decide (info ≠ ∅)
  end.

(** [not semantic_model_info or 'view_name' not in semantic_model_info] *)
Definition no_view (semantic_model_info : SemanticModelInfo) : bool :=
  match semantic_model_info with
  | None => true
  | Some info => bool_decide (info = ∅) || bool_decide (info !! "view_name" = None)
  end.

Record FailedQuestion := mkFailed {
  question : string;
  reason : string
}.

(** The result dictionary of the tester, without its [pass_rate] ratio. *)
Record SemanticTestResults := mkSemantic {
  answerable : list Question;
  failed : list FailedQuestion;
  skipped : bool
}.

(** The loop over [questions], one oracle call per non-search question. *)
Fixpoint semantic_test_loop (questions answerable : list Question)
    (failed : list FailedQuestion) : Service (list Question * list FailedQuestion) :=
  match questions with
  | [] => mret (answerable, failed)
  | q_dict :: rest =>
      if decide (is_search q_dict) then
        semantic_test_loop rest (answerable ++ [q_dict]) failed
      else
        reply ← cortex_can_answer;
        match reply with
        | AnalystRaises =>
            semantic_test_loop rest answerable
              (failed ++ [mkFailed (text q_dict) "Error testing question: "])
        | AnalystNoRows =>
            semantic_test_loop rest answerable
              (failed ++ [mkFailed (text q_dict)
                            "Cortex Analyst cannot generate SQL for this question"])
        | AnalystSays can_answer =>
            if Py.contains "YES" (Py.upper can_answer) then
              semantic_test_loop rest (answerable ++ [q_dict]) failed
            else
              semantic_test_loop rest answerable
                (failed ++ [mkFailed (text q_dict)
                              "Cortex Analyst cannot generate SQL for this question"])
        end
  end.

Definition test_questions_against_semantic_model
    (questions : list Question) (semantic_model_info : SemanticModelInfo)
    : Service SemanticTestResults :=
  if no_view semantic_model_info then
    mret (mkSemantic questions [] true)
  else
    '(answerable, failed) ← semantic_test_loop questions [] [];
    mret (mkSemantic answerable failed false).

(** ** DistributionSelector: [select_best_questions] *)

Definition select_best_questions
    (questions : list Question) (target_count min_advanced : nat)
    : list Question :=
  if decide (length questions ≤ target_count) then questions
  else
    let target_count := Z.of_nat target_count in
    let min_advanced := Z.of_nat min_advanced in
    let advanced := filter (has_difficulty "advanced") questions in
    let intermediate := filter (has_difficulty "intermediate") questions in
    let basic := filter (has_difficulty "basic") questions in
    let selected := Py.slice_to min_advanced advanced in
    let remaining_slots := (target_count - Py.len selected)%Z in
    let '(selected, advanced, intermediate, remaining_slots) :=
      if decide (Py.len selected < min_advanced)%Z then
        let needed := (min_advanced - Py.len selected)%Z in
        let selected := selected ++ Py.slice_to needed intermediate in
        (selected, advanced, Py.slice_from needed intermediate,
         (target_count - Py.len selected)%Z)
      else
        (selected, Py.slice_from min_advanced advanced, intermediate,
         remaining_slots) in
    let remaining_advanced_count :=
      Z.min (Py.len advanced) (Z.max 1 (Py.int_mul_0_1 remaining_slots)) in
    let remaining_intermediate_count :=
      Z.min (Py.len intermediate) (Py.int_mul_0_6 remaining_slots) in
    let remaining_basic_count :=
      Z.min (Py.len basic)
            (remaining_slots - remaining_advanced_count
             - remaining_intermediate_count) in
    let selected := selected ++ Py.slice_to remaining_advanced_count advanced in
    let selected := selected ++ Py.slice_to remaining_intermediate_count intermediate in
    let selected := selected ++ Py.slice_to remaining_basic_count basic in
    let selected :=
      if decide (Py.len selected < target_count)%Z then
        let remaining :=
          Py.slice_from remaining_advanced_count advanced
          ++ Py.slice_from remaining_intermediate_count intermediate
          ++ Py.slice_from remaining_basic_count basic in
        let needed := (target_count - Py.len selected)%Z in
        selected ++ Py.slice_to needed remaining
      else selected in
    Py.slice_to target_count selected.

(** ** RetryOrchestrator: [generate_contextual_questions] *)

(** The arguments of a run that the question pipeline reads:
    [demo_data.get('target_questions', [])], [semantic_model_info],
    [num_questions] and [rich_table_contexts] ([None] is the empty list). *)
Record Request := mkRequest {
  target_questions : list string;
  semantic_model_info : SemanticModelInfo;
  num_questions : nat;
  rich_table_contexts : list TableContext
}.

(** What a call either returns or raises. *)
Inductive outcome (A : Type) :=
| Returns (a : A)
| Raises (message : string).
Arguments Returns {A} a.
Arguments Raises {A} message.

(** *** Phase 0: the mandatory target questions *)

Definition target_q_dicts (target_questions_list : list string) : list Question :=
  map (λ q, mkQuestion q (Some "intermediate") (Some "analytics") None None None)
      target_questions_list.

(** The message of the exception raised at line 647. *)
Definition error_msg (failed_count total : nat) : string :=
  "❌ CRITICAL: " +:+ pretty failed_count +:+ "/" +:+ pretty total +:+
  " target questions are NOT answerable with the generated data. " +:+
  "This indicates a mismatch between the demo structure and your requirements. " +:+
  "Please try regenerating the demo or revising your questions.".

(** The texts listed by [st.error] before the exception is raised. *)
Definition failed_questions (target_questions_list : list string)
    (validated_targets : list Question) : list string :=
  filter (λ q, q ∉ map text validated_targets) target_questions_list.

Definition validate_targets `{Library} (req : Request)
    : Service (outcome (list Question * option DebugInfo)) :=
  if Py.falsy (rich_table_contexts req) then mret (Returns ([], None))
  else
    let target_questions_list := target_questions req in
    if Py.falsy target_questions_list then mret (Returns ([], None))
    else
      '(validated_targets, target_debug) ←
        validate_questions_with_llm (target_q_dicts target_questions_list)
                                    (rich_table_contexts req);
      if decide (length validated_targets < length target_questions_list) then
        let failed_count := length target_questions_list - length validated_targets in
        mret (Raises (error_msg failed_count (length target_questions_list)))
      else mret (Returns (validated_targets, Some target_debug)).

(** *** Candidate generation: [generate_questions_with_llm] *)

Definition set_source_ai (q : Question) : Question :=
  mkQuestion (text q) (difficulty q) (category q) (referenced_columns q)
             (Some "ai") (retry_attempt q).

Definition generate_questions_with_llm `{Library}
    (rich_table_contexts : list TableContext) : Service (list Question) :=
  g ← cortex_complete_questions;
  mret match g with
       | GenQuestions questions_data =>
           verify_column_references (map set_source_ai questions_data)
                                    rich_table_contexts
       | GenNoArray | GenRaises => []
       end.

(** *** Validation, one accumulation retry, and the reported pass rate *)

Record ValidationDebug := mkValidationDebug {
  attempt_1 : option DebugInfo;
  attempt_2 : option DebugInfo;
  retry_triggered : bool;
  final_pass_rate : Q;
  combined_pool_size : nat;
  after_selection : nat;
  attempt_1_questions : list string;
  attempt_2_questions : list string;
  attempt_1_valid : list string;
  attempt_2_valid : list string;
  used_fallback : bool;
  final_question_count : nat
}.

(** [validation_debug.get('attempt_2') or validation_debug.get('attempt_1')]:
    a debug dictionary is never empty, so the first one present is taken. *)
Definition final_attempt (attempt_1 attempt_2 : option DebugInfo) : option DebugInfo :=
  match attempt_2 with
  | Some d => Some d
  | None => attempt_1
  end.

(** [len(validated_questions) / target_count if target_count > 0 else 0] *)
Definition pass_ratio (validated target_count : nat) : Q :=
  if decide (0 < target_count) then Z.of_nat validated # Pos.of_nat target_count
  else 0%Q.

Definition validate_and_accumulate `{Library} (req : Request)
    (questions : list Question) : Service (list Question * ValidationDebug) :=
  let contexts := rich_table_contexts req in
  '(validated_questions, debug_info_1) ←
    validate_questions_with_llm questions contexts;
  let target_count := num_questions req in
  '(validated_questions', attempt_2, retried) ←
    (if decide (length validated_questions < target_count) then
       new_questions ← generate_questions_with_llm contexts;
       '(validated_new, debug_info_2) ←
         validate_questions_with_llm new_questions contexts;
       let combined_questions := validated_questions ++ validated_new in
       let final_questions := select_best_questions combined_questions target_count 3 in
       mret (final_questions,
             Some (debug_info_2, new_questions, validated_new, combined_questions),
             true)
     else mret (validated_questions, None, false));
  let attempt_2_debug := (λ a, a.1.1.1) <$> attempt_2 in
  let fallback :=
    match final_attempt (Some debug_info_1) attempt_2_debug with
    | Some d => fallback_used d
    | None => false
    end in
  mret (validated_questions',
        mkValidationDebug
          (Some debug_info_1)
          attempt_2_debug
          retried
          (if fallback then 0%Q
           else pass_ratio (length validated_questions') target_count)
          (from_option (λ a, length a.2) 0 attempt_2)
          (if retried then length validated_questions' else 0)
          (map text questions)
          (from_option (λ a, map text a.1.1.2) [] attempt_2)
          (map text validated_questions)
          (from_option (λ a, map text a.1.2) [] attempt_2)
          fallback
          (length validated_questions')).

(** *** The mandatory semantic test of the validated pool (lines 810 to 859) *)

Definition semantic_gate (req : Request) (validated_questions : list Question)
    : Service (list Question) :=
  if model_given (semantic_model_info req) then
    semantic_test_results ←
      test_questions_against_semantic_model validated_questions
                                            (semantic_model_info req);
    mret (if Py.falsy (failed semantic_test_results) then validated_questions
          else answerable semantic_test_results)
  else mret [].

(** *** The distribution retry loop (lines 861 to 978) *)

Definition MAX_RETRIES : nat := 3.

Definition analytics_count (qs : list Question) : nat := length (filter is_analytics qs).
Definition search_count (qs : list Question) : nat := length (filter is_search qs).

Definition needs_more_analytics (qs : list Question) : bool :=
  bool_decide (analytics_count qs < 2).
Definition needs_more_search (qs : list Question) : bool :=
  bool_decide (search_count qs < 2).

Definition tag_retry (retry_attempt : nat) (q : Question) : Question :=
  mkQuestion (text q) (difficulty q) (category q) (referenced_columns q)
             (Some "ai") (Some retry_attempt).

Inductive round_exit := RoundBreak | RoundContinue.

(** The body of the [try] of one round, after [retry_attempt += 1].  In
    CPython the name [get_question_generation_prompt] is local to
    [generate_contextual_questions] (it is imported at line 1031), so the use
    at line 905 raises before any request is sent; that behaviour is the
    [GenRaises] case of the generation outcome. *)
Definition retry_round `{Library} (req : Request) (retry_attempt : nat)
    (accumulated_questions : list Question)
    : Service (round_exit * list Question) :=
  let num_analytics_needed :=
    if needs_more_analytics accumulated_questions
    then 3 - analytics_count accumulated_questions else 0 in
  let num_search_needed :=
    if needs_more_search accumulated_questions
    then 3 - search_count accumulated_questions else 0 in
  let total_needed := num_analytics_needed + num_search_needed in
  if decide (total_needed = 0) then mret (RoundBreak, accumulated_questions)
  else
    g ← cortex_complete_questions;
    match g with
    | GenRaises | GenNoArray => mret (RoundContinue, accumulated_questions)
    | GenQuestions questions_data =>
        let retry_questions := map (tag_retry retry_attempt) questions_data in
        '(validated_retry, _) ←
          validate_questions_with_llm retry_questions (rich_table_contexts req);
        validated_retry ←
          (if model_given (semantic_model_info req)
              && negb (Py.falsy validated_retry) then
             retry_test_results ←
               test_questions_against_semantic_model validated_retry
                                                     (semantic_model_info req);
             mret (answerable retry_test_results)
           else mret validated_retry);
        mret (RoundContinue, accumulated_questions ++ validated_retry)
    end.

(** The [while retry_attempt < MAX_RETRIES] loop; it returns the final value
    of [retry_attempt] with the accumulated questions. *)
Equations? retry_loop `{Library} (req : Request) (retry_attempt : nat)
    (accumulated_questions : list Question) (w : World)
    : (nat * list Question) * World
    by wf (MAX_RETRIES - retry_attempt) lt :=
  retry_loop req retry_attempt accumulated_questions w
    with decide (retry_attempt < MAX_RETRIES) => {
    | right _ => ((retry_attempt, accumulated_questions), w)
    | left _
        with needs_more_analytics accumulated_questions
             || needs_more_search accumulated_questions => {
        | false => ((retry_attempt, accumulated_questions), w)
        | true
            with retry_round req (S retry_attempt) accumulated_questions w => {
            | ((RoundBreak, accumulated'), w') =>
                ((S retry_attempt, accumulated'), w')
            | ((RoundContinue, accumulated'), w') =>
                retry_loop req (S retry_attempt) accumulated' w' } } }.
Proof. all: unfold MAX_RETRIES in *; lia. Qed.

(** *** Targeted generation for a missing quota (lines 983 to 1084) *)

Definition advanced_analytics_count (qs : list Question) : nat :=
  length (filter (λ q, has_difficulty "advanced" q ∧ is_analytics q) qs).

Definition targeted_generation `{Library} (req : Request)
    (validated_questions : list Question) : Service (list Question) :=
  let missing_advanced_analytics :=
    bool_decide (advanced_analytics_count validated_questions < 3) in
  let missing_search := bool_decide (search_count validated_questions < 3) in
  if missing_advanced_analytics || missing_search then
    g ← cortex_complete_questions;
    match g with
    | GenQuestions questions_data =>
        let targeted_questions := map set_source_ai questions_data in
        '(validated_targeted, _) ←
          validate_questions_with_llm targeted_questions (rich_table_contexts req);
        mret (validated_questions ++ validated_targeted)
    | GenNoArray | GenRaises => mret validated_questions
    end
  else mret validated_questions.

(** *** The final selection by category and difficulty (lines 1101 to 1143) *)

Definition final_selection `{Library} (num_questions : nat)
    (validated_questions : list Question) : list Question :=
  if decide (num_questions < length validated_questions) then
    let analytics_qs := filter is_analytics validated_questions in
    let search_qs := filter is_search validated_questions in
    let target_analytics := int_mul_0_7 (Z.of_nat num_questions) in
    let target_search := (Z.of_nat num_questions - target_analytics)%Z in
    let selected_analytics :=
      if decide (target_analytics < Py.len analytics_qs)%Z then
        let advanced_analytics := filter (has_difficulty "advanced") analytics_qs in
        let intermediate_analytics :=
          filter (has_difficulty "intermediate") analytics_qs in
        let basic_analytics := filter (has_difficulty "basic") analytics_qs in
        let selected_analytics :=
          Py.slice_to (Z.min 3 (Py.len advanced_analytics)) advanced_analytics in
        let remaining_analytics_slots :=
          (target_analytics - Py.len selected_analytics)%Z in
        if decide (0 < remaining_analytics_slots)%Z then
          let selected_analytics :=
            selected_analytics
            ++ Py.slice_to remaining_analytics_slots intermediate_analytics in
          let remaining_analytics_slots :=
            (target_analytics - Py.len selected_analytics)%Z in
          if decide (0 < remaining_analytics_slots)%Z then
            selected_analytics
            ++ Py.slice_to remaining_analytics_slots basic_analytics
          else selected_analytics
        else selected_analytics
      else Py.slice_to target_analytics analytics_qs in
    let selected_search := Py.slice_to target_search search_qs in
    let validated_questions := selected_analytics ++ selected_search in
    if decide (Py.len validated_questions < Z.of_nat num_questions)%Z then
      let remaining := (Z.of_nat num_questions - Py.len validated_questions)%Z in
      let used_texts : gset string := list_to_set (map text validated_questions) in
      let unused_analytics := filter (λ q, text q ∉ used_texts) analytics_qs in
      validated_questions ++ Py.slice_to remaining unused_analytics
    else validated_questions
  else validated_questions.

(** *** Target questions first, then the generated ones (lines 1148 to 1162) *)

Definition include_targets (validated_target_questions validated_questions : list Question)
    (num_questions : nat) : list Question :=
  if Py.falsy validated_target_questions then take num_questions validated_questions
  else
    let target_texts : gset string :=
      list_to_set (map text validated_target_questions) in
    let non_target_questions :=
      filter (λ q, text q ∉ target_texts) validated_questions in
    take num_questions (validated_target_questions ++ non_target_questions).

(** *** The whole run *)

(** The returned list together with the two debug records the run leaves in
    [st.session_state]. *)
Record PipelineResult := mkResult {
  final_questions : list Question;
  question_validation_debug : option ValidationDebug;
  target_question_validation_debug : option DebugInfo
}.

Definition generate_contextual_questions `{Library} (req : Request)
    : Service (outcome PipelineResult) :=
  targets ← validate_targets req;
  match targets with
  | Raises message => mret (Raises message)
  | Returns (validated_target_questions, target_question_debug) =>
      questions ← generate_questions_with_llm (rich_table_contexts req);
      if negb (Py.falsy (rich_table_contexts req)) && negb (Py.falsy questions) then
        '(validated_questions, validation_debug) ←
          validate_and_accumulate req questions;
        validated_questions ← semantic_gate req validated_questions;
        '(_, accumulated_questions) ← retry_loop req 0 validated_questions;
        validated_questions ← targeted_generation req accumulated_questions;
        let validated_questions :=
          final_selection (num_questions req) validated_questions in
        mret (Returns
                (mkResult
                   (include_targets validated_target_questions validated_questions
                                    (num_questions req))
                   (Some validation_debug) target_question_debug))
      else
        mret (Returns
                (mkResult (take (num_questions req) questions) None
                          target_question_debug))
  end.

(** ** Display: [format_questions_for_display] *)

(** The line feed the f-strings end with. *)
Definition nl : string := String (ascii_of_nat 10) EmptyString.

(** The loop [for idx, q in enumerate(group, 1)] appending
    [f"{idx}. {q['text']}\n"]. *)
Fixpoint numbered_lines (idx : nat) (group : list Question) : string :=
  match group with
  | [] => ""
  | q :: rest =>
      pretty idx +:+ ". " +:+ text q +:+ nl +:+ numbered_lines (S idx) rest
  end.

(** One of the three [if group:] blocks. *)
Definition display_section (title : string) (group : list Question) : string :=
  if Py.falsy group then ""
  else "### " +:+ title +:+ " Questions" +:+ nl +:+ nl
       +:+ numbered_lines 1 group +:+ nl.

Definition format_questions_for_display (questions : list Question) : string :=
  let basic_questions := filter (has_difficulty "basic") questions in
  let intermediate_questions := filter (has_difficulty "intermediate") questions in
  let advanced_questions := filter (has_difficulty "advanced") questions in
  "## Generated Questions" +:+ nl +:+ nl
  +:+ display_section "Basic" basic_questions
  +:+ display_section "Intermediate" intermediate_questions
  +:+ display_section "Advanced" advanced_questions.

(** ** Field names: [normalize_field_name_to_sql] *)

Module Field.

(** [str.lower] on the ASCII letters. *)
Definition lower_ascii (c : ascii) : ascii :=
  let n := nat_of_ascii c in
  if (65 <=? n)%nat && (n <=? 90)%nat then ascii_of_nat (n + 32) else c.

Fixpoint lower (s : string) : string :=
  match s with
  | EmptyString => EmptyString
  | String c s' => String (lower_ascii c) (lower s')
  end.

(** [re.sub(r'\s+', '_', s)]: every maximal run of whitespace becomes one
    underscore; [in_run] tells that the previous character was whitespace. *)
Fixpoint sub_whitespace (in_run : bool) (s : string) : string :=
  match s with
  | EmptyString => EmptyString
  | String c s' =>
      if Py.is_space c then
        if in_run then sub_whitespace true s'
        else String "_" (sub_whitespace true s')
      else String c (sub_whitespace false s')
  end.

(** The pattern [([^s])s$]: a final [s] that follows another character which
    is not an [s]. *)
Definition ends_in_single_s (s : string) : bool :=
  match String.rev s with
  | String a (String b _) => bool_decide (a = "s"%char) && negb (bool_decide (b = "s"%char))
  | _ => false
  end.

(** The loop over [plural_patterns]: the first pattern found is applied and
    the loop stops.  The text holds no line feed at this point, so [$] is the
    end of the text. *)
Definition singular (normalized : string) : string :=
  if Py.endswith "ies" normalized then Py.str_drop_end 3 normalized +:+ "y"
  else if Py.endswith "ses" normalized then Py.str_drop_end 3 normalized +:+ "s"
  else if Py.endswith "ches" normalized then Py.str_drop_end 4 normalized +:+ "ch"
  else if Py.endswith "xes" normalized then Py.str_drop_end 3 normalized +:+ "x"
  else if ends_in_single_s normalized then Py.str_drop_end 1 normalized
  else normalized.

End Field.

Definition normalize_field_name_to_sql (field_name : string) : string :=
  let normalized := Py.strip (Field.lower field_name) in
  let normalized := Field.sub_whitespace false normalized in
  let normalized := Field.singular normalized in
  Py.upper normalized.

(** ** Schema alignment: [build_schema_alignment_report] *)

(** An entry of [report['tables']]; the lists built from the two set
    differences are kept as sets, their order being that of set iteration. *)
Record TableReport := mkTableReport {
  missing : gset string;
  extra : gset string;
  match_rate : Q
}.

Record AlignmentReport := mkReport {
  perfect_match : bool;
  tables : gmap string TableReport;
  total_discrepancies : nat
}.

(** [set([col['name'].upper() for col in ctx.get('columns', [])])] *)
Definition expected_columns (ctx : TableContext) : gset string :=
  list_to_set (map (λ col, Py.upper (col_name col)) (columns ctx)).

(** [set(actual_columns.get(table_name, []))] *)
Definition actual_column_set (actual_columns : gmap string (list string))
    (ctx : TableContext) : gset string :=
  list_to_set (default [] (actual_columns !! tbl_name ctx)).

(** The body of the loop over [expected_contexts]. *)
Definition alignment_step (actual_columns : gmap string (list string))
    (report : AlignmentReport) (ctx : TableContext) : AlignmentReport :=
  let expected := expected_columns ctx in
  let actual := actual_column_set actual_columns ctx in
  let missing := expected ∖ actual in
  let extra := actual ∖ expected in
  if bool_decide (missing ≠ ∅) || bool_decide (extra ≠ ∅) then
    mkReport false
      (<[ tbl_name ctx :=
            mkTableReport missing extra
              (if bool_decide (expected ∪ actual ≠ ∅)
               then Z.of_nat (size (expected ∩ actual))
                    # Pos.of_nat (size (expected ∪ actual))
               else 0%Q) ]> (tables report))
      (total_discrepancies report + (size missing + size extra))
  else report.

Definition build_schema_alignment_report (expected_contexts : list TableContext)
    (actual_columns : gmap string (list string)) : AlignmentReport :=
  foldl (alignment_step actual_columns) (mkReport true ∅ 0) expected_contexts.

(** A difficulty the selector and the display know. *)
Definition known_difficulty (q : Question) : Prop :=
  has_difficulty "basic" q ∨ has_difficulty "intermediate" q
  ∨ has_difficulty "advanced" q.

#[global] Instance known_difficulty_dec q : Decision (known_difficulty q).
Proof. unfold known_difficulty. apply _. Defined.

(** A lower-case ASCII letter. *)
Definition is_lower (c : ascii) : bool :=
  let n := nat_of_ascii c in (97 <=? n)%nat && (n <=? 122)%nat.

(** A generation outcome without questions. *)
Definition generation_fails (g : generation) : Prop :=
  match g with GenQuestions _ => False | _ => True end.

(** A response wrapped in a markdown fence, with or without the [json] tag. *)
Definition fenced (tag body : string) : string :=
  "```" +:+ tag +:+ nl +:+ body +:+ nl +:+ "```".

(** ** The properties, as the specification words them *)

(** A declared column matches a schema column when the two names agree up to
    case, that is, once upper-cased by [str.upper]. *)
Definition matches_column `{Library} (contexts : list TableContext)
    (declared : string) : Prop :=
  ∃ ctx col, ctx ∈ contexts ∧ col ∈ columns ctx
             ∧ str_upper (col_name col) = str_upper declared.

(** The same, for schema columns whose upper-cased name is not empty. *)
Definition names_column `{Library} (contexts : list TableContext)
    (declared : string) : Prop :=
  ∃ ctx col, ctx ∈ contexts ∧ col ∈ columns ctx
             ∧ str_upper (col_name col) ≠ ""
             ∧ str_upper (col_name col) = str_upper declared.

Definition declared_columns (P : string → Prop) (q : Question) : Prop :=
  ∀ cols, referenced_columns q = Some cols → Forall P cols.

(** The verifier contract of section 4.3 at one input: an order-preserving
    filter that keeps a question exactly when all its declared columns match. *)
Definition column_verifier_contract `{Library} (questions : list Question)
    (contexts : list TableContext) : Prop :=
  let verified := verify_column_references questions contexts in
  verified `sublist_of` questions
  ∧ ∀ q, q ∈ questions →
         (q ∈ verified ↔ declared_columns (matches_column contexts) q).

(** The selector quota of section 4.6 at one input. *)
Definition selector_quota_contract (pool : list Question)
    (target_count min_advanced : nat) : Prop :=
  let selected := select_best_questions pool target_count min_advanced in
  length selected ≤ target_count
  ∧ (target_count < length pool →
     min_advanced ≤ advanced_analytics_count pool →
     min_advanced ≤ advanced_analytics_count selected).

(** The verdict reading the index-safety property describes: entries that are
    integers between 1 and the number of submitted questions select the
    question at that position, every other entry is skipped. *)
Definition in_range_entry (analytics_questions : list Question) (num : json)
    : option Question :=
  match num with
  | JInt z =>
      if decide (1 ≤ z ∧ z ≤ Py.len analytics_questions)%Z
      then analytics_questions !! Z.to_nat (z - 1) else None
  | _ => None
  end.

Definition in_range_selection (analytics_questions : list Question)
    (valid_nums : list json) : list Question :=
  omap (in_range_entry analytics_questions) valid_nums.

(** A reply of the validation service that sends the validator to its
    fallback: the call raised, the response is empty, or it is not JSON. *)
Definition unusable_reply `{Library} (reply : completion) : Prop :=
  match reply with
  | CallRaises => True
  | Completion None => True
  | Completion (Some response) =>
      Py.strip response = "" ∨ json_loads (clean_response response) = None
  end.

(** The index-safety property at one verdict: the accepted analytics
    questions are the in-range selection. *)
Definition index_safety_contract (analytics_questions : list Question)
    (valid_nums : list json) : Prop :=
  read_verdict analytics_questions
               (JObj [("valid_question_numbers", JArr valid_nums)])
  = Done (in_range_selection analytics_questions valid_nums).

(** The verdict entries as the amended reading has them.  An entry counts as
    a position when it is an integer, [true] standing for 1 and [false] for
    0; it selects the submitted question at that position when the position
    lies between 1 and the number of submitted questions. *)
Definition entry_position (num : json) : option Z :=
  match num with
  | JInt z => Some z
  | JBool b => Some (if b then 1 else 0)%Z
  | _ => None
  end.

Definition selected_entry (analytics_questions : list Question) (num : json)
    : option Question :=
  match entry_position num with
  | Some z =>
      if decide (1 ≤ z ∧ z ≤ Py.len analytics_questions)%Z
      then analytics_questions !! Z.to_nat (z - 1) else None
  | None => None
  end.

Definition selected_questions (analytics_questions : list Question)
    (valid_nums : list json) : list Question :=
  omap (selected_entry analytics_questions) valid_nums.

(** An entry the loop cannot get past, for [n] submitted questions: a float
    between 1 and [n], or a value that is no number at all (a string, [null],
    a list, an object). *)
Definition raising_entry (n : nat) (num : json) : Prop :=
  match num with
  | JInt _ | JBool _ => False
  | JFloat x => (1 <= x)%Q ∧ (x <= inject_Z (Z.of_nat n))%Q
  | JNull | JStr _ | JArr _ | JObj _ => True
  end.


(** A text of ASCII characters only.  On such a text the byte-wise
    [Py.strip], [Py.upper], [Field.lower] and [Field.sub_whitespace] are
    [str.strip], [str.upper], [str.lower] and [re.sub] on whitespace. *)
Definition ascii_text (s : string) : Prop :=
  Forall (λ c, nat_of_ascii c < 128) (list_ascii_of_string s).

(** The target contract of section 4.1 at one run, for a way [texts_of] of
    reading question texts off an error: a run whose validator accepts fewer
    targets than were supplied raises an error that carries the failing
    texts. *)
Definition target_error_contract `{Library} (texts_of : string → list string)
    (req : Request) (w : World) : Prop :=
  let validated_targets :=
    (validate_questions_with_llm (target_q_dicts (target_questions req))
                                 (rich_table_contexts req) w).1.1 in
  length validated_targets < length (target_questions req) →
  ∃ message,
    (generate_contextual_questions req w).1 = Raises message
    ∧ texts_of message
      = failed_questions (target_questions req) validated_targets.

(** Fallback transparency as section 8 states it, at one run: a fallback in
    any recorded validation round forces a reported pass rate of zero. *)
Definition fallback_transparency_contract `{Library} (req : Request) (w : World)
    : Prop :=
  ∀ result validation_debug,
    (generate_contextual_questions req w).1 = Returns result →
    question_validation_debug result = Some validation_debug →
    fallback_used <$> attempt_1 validation_debug = Some true
    ∨ fallback_used <$> attempt_2 validation_debug = Some true
    ∨ fallback_used <$> target_question_validation_debug result = Some true →
    (final_pass_rate validation_debug == 0)%Q.

(** No duplicate texts, at one run. *)
Definition no_duplicate_texts_contract `{Library} (req : Request) (w : World)
    : Prop :=
  ∀ result,
    (generate_contextual_questions req w).1 = Returns result →
    NoDup (map text (final_questions result)).

(** ** Scenarios *)

Module Scenario.

Definition dq : string := String (ascii_of_nat 34) EmptyString.

(** The raw text of a verdict whose number list is [nums]. *)
Definition verdict_text (nums : string) : string :=
  "{" +:+ dq +:+ "valid_question_numbers" +:+ dq +:+ ": [" +:+ nums +:+ "]}".

(** [json.loads] on the verdict texts the scenarios use. *)
Definition loads (s : string) : option json :=
  if decide (s = verdict_text "") then
    Some (JObj [("valid_question_numbers", JArr [])])
  else if decide (s = verdict_text "1") then
    Some (JObj [("valid_question_numbers", JArr [JInt 1])])
  else if decide (s = verdict_text "1, 1") then
    Some (JObj [("valid_question_numbers", JArr [JInt 1; JInt 1])])
  else if decide (s = verdict_text "1, 2") then
    Some (JObj [("valid_question_numbers", JArr [JInt 1; JInt 2])])
  else if decide (s = verdict_text ("1, " +:+ dq +:+ "2" +:+ dq)) then
    Some (JObj [("valid_question_numbers", JArr [JInt 1; JStr "2"])])
  else None.

(** For the small counts of the scenarios [int(n * 0.7)] is the quotient, and
    on their ASCII column names [str.upper] is [Py.upper]. *)
#[local] Instance library : Library :=
  {| json_loads := loads; int_mul_0_7 := λ n, (7 * n / 10)%Z;
     str_upper := Py.upper |}.

Definition ask (t d c : string) : Question :=
  mkQuestion t (Some d) (Some c) None None None.

Definition sales : list TableContext :=
  [mkTable "SALES" 100 [mkColumn "ENTITY_ID" "NUMBER";
                        mkColumn "REVENUE" "NUMBER";
                        mkColumn "REGION" "STRING"]].

Definition silent : World := mkWorld [] [] [].

(** A table with a column whose name is the empty string, and a question that
    declares the empty column name. *)
Definition empty_name : list TableContext :=
  [mkTable "T" 1 [mkColumn "" "STRING"]].
Definition declares_nothing : Question :=
  mkQuestion "How many rows are there?" None None (Some [""]) None None.

(** A question that declares [revenue] and one without a declaration. *)
Definition revenue_by_region : Question :=
  mkQuestion "What is the total revenue by region?" (Some "basic")
             (Some "analytics") (Some ["revenue"; "Region"]) None None.
Definition churn : Question :=
  mkQuestion "Which customers churned?" (Some "basic") (Some "analytics")
             (Some ["CHURN_FLAG"]) None None.
Definition undeclared : Question := ask "How many sales were made?" "basic" "analytics".

(** A pool whose advanced questions start with two search questions. *)
Definition mixed_pool : list Question :=
  [ask "s1" "advanced" "search"; ask "s2" "advanced" "search";
   ask "a1" "advanced" "analytics"; ask "a2" "advanced" "analytics"].

(** A pool with a single advanced question. *)
Definition one_advanced_pool : list Question :=
  [ask "a1" "advanced" "analytics"; ask "i1" "intermediate" "analytics";
   ask "i2" "intermediate" "analytics"; ask "i3" "intermediate" "analytics";
   ask "i4" "intermediate" "analytics"].

(** Two search questions with two analytics questions. *)
Definition two_and_two : list Question :=
  [ask "q1" "basic" "analytics"; ask "f1" "basic" "search";
   ask "q2" "advanced" "analytics"; ask "f2" "basic" "search"].

(** One mandatory question, rejected by the validator. *)
Definition reject_all : World :=
  mkWorld [Completion (Some (verdict_text ""))] [] [].
Definition wants (t : string) : Request := mkRequest [t] None 12 sales.

(** First validation falls back on an empty response, the second one gets a
    verdict; two questions are asked for and each generation yields one. *)
Definition fallback_then_verdict : World :=
  mkWorld [Completion (Some ""); Completion (Some (verdict_text "1"))]
          [GenQuestions [ask "a" "basic" "analytics"];
           GenQuestions [ask "b" "basic" "analytics"]]
          [].
Definition two_questions : Request := mkRequest [] None 2 sales.

(** The generator repeats itself and there is no schema context. *)
Definition repeats : World :=
  mkWorld [] [GenQuestions [ask "top regions" "basic" "analytics";
                            ask "top regions" "basic" "analytics"]] [].
Definition no_context : Request := mkRequest [] None 2 [].

(** A semantic model description without a view name. *)
Definition synonyms_only : SemanticModelInfo :=
  Some {[ "column_synonyms" := "REVENUE: sales, income" ]}.

(** A deployed view, four questions asked for; the first generation yields
    one advanced and two intermediate questions, the second one two more
    intermediate ones; both validations fall back on an empty response and
    the tester answers yes each time. *)
Definition deployed_view : SemanticModelInfo :=
  Some {[ "view_name" := "SALES_VIEW" ]}.
Definition four_questions : Request := mkRequest [] deployed_view 4 sales.
Definition one_advanced_run : World :=
  mkWorld [Completion (Some ""); Completion (Some "")]
          [GenQuestions [ask "a1" "advanced" "analytics";
                         ask "i1" "intermediate" "analytics";
                         ask "i2" "intermediate" "analytics"];
           GenQuestions [ask "i3" "intermediate" "analytics";
                         ask "i4" "intermediate" "analytics"]]
          [AnalystSays "Yes"; AnalystSays "YES"; AnalystSays "yes.";
           AnalystSays "YES"].

(** Two mandatory questions and a verdict that lists the first one twice. *)
Definition two_targets : Request :=
  mkRequest ["What is the total revenue?"; "What is the satisfaction score?"]
            None 12 sales.
Definition first_twice : World :=
  mkWorld [Completion (Some (verdict_text "1, 1"))] [] [].

(** The generator repeats itself, the validator accepts both questions and
    the tester answers yes. *)
Definition two_with_view : Request := mkRequest [] deployed_view 2 sales.
Definition repeats_validated : World :=
  mkWorld [Completion (Some (verdict_text "1, 2"))]
          [GenQuestions [ask "top regions" "basic" "analytics";
                         ask "top regions" "basic" "analytics"]]
          [AnalystSays "YES"; AnalystSays "YES"].

(** Two analytics questions and a verdict with a string entry. *)
Definition two_analytics : list Question :=
  [ask "q1" "basic" "analytics"; ask "q2" "advanced" "analytics"].
Definition string_entry : World :=
  mkWorld [Completion (Some (verdict_text ("1, " +:+ dq +:+ "2" +:+ dq)))] [] [].

End Scenario.

(** ** Further cases *)

Module Cases.

(** [json.loads] on two more texts: an object without members and a bare
    list of numbers. *)
Definition loads_more (s : string) : option json :=
  if decide (s = "{}") then Some (JObj [])
  else if decide (s = "[1, 2]") then Some (JArr [JInt 1; JInt 2])
  else Scenario.loads s.

#[local] Instance library_more : Library :=
  {| json_loads := loads_more; int_mul_0_7 := λ n, (7 * n / 10)%Z;
     str_upper := Py.upper |}.

(** [json.loads] on a verdict whose list holds a boolean, a float and an
    integer out of range. *)
Definition loads_mixed (s : string) : option json :=
  if decide (s = Scenario.verdict_text "true, 7.5, false, 3") then
    Some (JObj [("valid_question_numbers",
                 JArr [JBool true; JFloat (15 # 2); JBool false; JInt 3])])
  else Scenario.loads s.

#[local] Instance library_mixed : Library :=
  {| json_loads := loads_mixed; int_mul_0_7 := λ n, (7 * n / 10)%Z;
     str_upper := Py.upper |}.

Definition mixed_entries : World :=
  mkWorld [Completion (Some (Scenario.verdict_text "true, 7.5, false, 3"))] [] [].

(** A verdict without the key [valid_question_numbers], and a verdict that is
    a bare list. *)
Definition empty_object : World := mkWorld [Completion (Some "{}")] [] [].
Definition bare_list : World := mkWorld [Completion (Some "[1, 2]")] [] [].

(** The tester answers yes, then no. *)
Definition yes_then_no : World :=
  mkWorld [] [] [AnalystSays "YES"; AnalystSays "NO"].

(** Two generated questions, the second one with a column outside the
    schema. *)
Definition two_generated : World :=
  mkWorld [] [GenQuestions [Scenario.revenue_by_region; Scenario.churn]] [].

(** The verdict accepts both questions. *)
Definition accepts_both : World :=
  mkWorld [Completion (Some (Scenario.verdict_text "1, 2"))] [] [].

(** Every generation request fails. *)
Definition no_generation : World :=
  mkWorld [] [GenRaises; GenNoArray; GenRaises] [].

(** One mandatory question, accepted by the validator; without a generated
    question, and with two generated questions that the validator accepts. *)
Definition one_target : Request :=
  mkRequest ["What is the total revenue?"] None 2 Scenario.sales.
Definition target_accepted : World :=
  mkWorld [Completion (Some (Scenario.verdict_text "1"))] [] [].
Definition target_then_generated : World :=
  mkWorld [Completion (Some (Scenario.verdict_text "1"));
           Completion (Some (Scenario.verdict_text "1, 2"))]
          [GenQuestions Scenario.two_analytics] [].

(** Against a deployed view: the first validation gets an empty response
    and falls back, the accumulation retry gets a verdict, and the tester
    answers yes to both questions. *)
Definition fallback_then_verdict_view : World :=
  mkWorld [Completion (Some ""); Completion (Some (Scenario.verdict_text "1"))]
          [GenQuestions [Scenario.ask "a" "basic" "analytics"];
           GenQuestions [Scenario.ask "b" "basic" "analytics"]]
          [AnalystSays "YES"; AnalystSays "YES"].

End Cases.

(** * Properties *)
(** ** Python primitives *)

Section primitives.
Context {A : Type}.
Implicit Types (l : list A) (k : Z).

Lemma slice_to_nonneg (n : nat) l : Py.slice_to (Z.of_nat n) l = take n l.
Proof.
  unfold Py.slice_to. destruct (decide _) as [_|Hneg]; [|lia].
  by rewrite Nat2Z.id.
Qed.

Lemma falsy_nil l : Py.falsy l = true ↔ l = [].
Proof. by destruct l. Qed.

Lemma falsy_cons l : Py.falsy l = false ↔ l ≠ [].
Proof. by destruct l. Qed.
End primitives.

Lemma upper_empty s : Py.upper s = "" ↔ s = "".
Proof. by destruct s. Qed.

(** ** The column inventory *)

Section inventory.
Context `{Library}.

Lemma elem_of_add_table_columns acc ctx x :
  x ∈ add_table_columns acc ctx ↔
  x ∈ acc ∨ (x ≠ "" ∧ ∃ col, col ∈ columns ctx ∧ str_upper (col_name col) = x).
Proof.
  unfold add_table_columns. revert acc.
  induction (columns ctx) as [|c cs IH]; intros acc; simpl.
  - split; [by left|]. intros [?|(_ & col & Hcol & _)]; [done|].
    by apply elem_of_nil in Hcol.
  - rewrite IH. destruct (decide (str_upper (col_name c) = "")) as [Hc|Hc].
    + split; intros [?|(Hx & col & Hcol & Hup)]; auto.
      * right. split; [done|]. exists col. split; [by right|done].
      * apply elem_of_cons in Hcol as [-> | Hcol]; [congruence|].
        right. eauto.
    + rewrite elem_of_union, elem_of_singleton.
      split; intros [Hin|Hrest].
      * destruct Hin as [?| ->]; [by left|].
        right. split; [done|]. exists c. split; [by left|done].
      * destruct Hrest as (Hx & col & Hcol & Hup).
        right. split; [done|]. exists col. split; [by right|done].
      * by left; left.
      * destruct Hrest as (Hx & col & Hcol & Hup).
        apply elem_of_cons in Hcol as [-> | Hcol]; [by left; right|].
        right. eauto.
Qed.

Lemma elem_of_fold_table_columns acc contexts x :
  x ∈ foldl add_table_columns acc contexts ↔
  x ∈ acc ∨ (x ≠ "" ∧ ∃ ctx col, ctx ∈ contexts ∧ col ∈ columns ctx
                                 ∧ str_upper (col_name col) = x).
Proof.
  revert acc. induction contexts as [|t ts IH]; intros acc; simpl.
  - split; [by left|]. intros [?|(_ & ctx & _ & Hctx & _)]; [done|].
    by apply elem_of_nil in Hctx.
  - rewrite IH, elem_of_add_table_columns. split.
    + intros [[?|(Hx & col & Hcol & Hup)]|(Hx & ctx & col & Hctx & Hcol & Hup)].
      * by left.
      * right. split; [done|]. exists t, col. split; [by left|done].
      * right. split; [done|]. exists ctx, col. split; [by right|done].
    + intros [?|(Hx & ctx & col & Hctx & Hcol & Hup)]; [by left; left|].
      apply elem_of_cons in Hctx as [-> | Hctx].
      * left. right. eauto.
      * right. split; [done|]. eauto.
Qed.

Lemma elem_of_all_columns contexts declared :
  str_upper declared ∈ all_columns contexts ↔ names_column contexts declared.
Proof.
  unfold all_columns, names_column. rewrite elem_of_fold_table_columns.
  split.
  - intros [Hin|(Hne & ctx & col & Hctx & Hcol & Hup)];
      [by apply not_elem_of_empty in Hin|].
    exists ctx, col. repeat split; try done. by rewrite Hup.
  - intros (ctx & col & Hctx & Hcol & Hname & Hup). right. split.
    + by rewrite <- Hup.
    + eauto.
Qed.

Lemma columns_verified_spec contexts q :
  columns_verified (all_columns contexts) q = true ↔
  declared_columns (names_column contexts) q.
Proof.
  unfold columns_verified, declared_columns.
  destruct (referenced_columns q) as [cols|].
  - rewrite <- Is_true_true, forallb_True. split.
    + intros Hall ? [= <-]. eapply Forall_impl; [exact Hall|].
      intros c Hc. apply elem_of_all_columns. by apply bool_decide_unpack in Hc.
    + intros Hall. eapply Forall_impl; [exact (Hall _ eq_refl)|].
      intros c Hc. apply bool_decide_pack. by apply elem_of_all_columns.
  - split; [by intros _ ? [=]|done].
Qed.

(** C4, as amended.  Whatever [str.upper] does to a name, for a non-empty
    schema context [verify_column_references] returns an order-preserving
    subsequence of its input; a question without a [referenced_columns] key
    is kept, and a question with one is kept exactly when every declared
    name, upper-cased by [str.upper], is the upper-cased name of some column
    of some table, that upper-cased name being non-empty. *)
Theorem verify_column_references_filter questions contexts :
  contexts ≠ [] →
  verify_column_references questions contexts `sublist_of` questions
  ∧ ∀ q, q ∈ questions →
         (referenced_columns q = None → q ∈ verify_column_references questions contexts)
         ∧ (q ∈ verify_column_references questions contexts
            ↔ declared_columns (names_column contexts) q).
Proof.
  intros Hctx. unfold verify_column_references.
  apply falsy_cons in Hctx. rewrite Hctx. simpl.
  destruct (Py.falsy questions) eqn:Hq.
  - apply falsy_nil in Hq as ->. split; [done|]. intros q Hq.
    by apply elem_of_nil in Hq.
  - split; [apply sublist_filter|]. intros q Hq'.
    assert (Hiff : q ∈ filter (λ q, columns_verified (all_columns contexts) q = true)
                         questions
                   ↔ declared_columns (names_column contexts) q).
    { rewrite list_elem_of_filter, columns_verified_spec. tauto. }
    split; [|done]. intros Hnone. apply Hiff. intros cols Hcols. congruence.
Qed.

End inventory.

Lemma verify_column_references_filter_witness :
  Scenario.sales ≠ []
  ∧ Scenario.revenue_by_region
      ∈ verify_column_references (H := Scenario.library)
          [Scenario.churn; Scenario.revenue_by_region; Scenario.undeclared]
          Scenario.sales.
Proof.
  assert (Hne : Scenario.sales ≠ []) by done.
  split; [exact Hne|].
  destruct (verify_column_references_filter (H := Scenario.library)
              [Scenario.churn; Scenario.revenue_by_region; Scenario.undeclared]
              Scenario.sales Hne) as [_ Hkeep].
  apply (Hkeep Scenario.revenue_by_region); [compute_done|].
  intros cols [= <-].
  repeat constructor;
    exists (mkTable "SALES" 100 [mkColumn "ENTITY_ID" "NUMBER";
                                 mkColumn "REVENUE" "NUMBER";
                                 mkColumn "REGION" "STRING"]).
  - exists (mkColumn "REVENUE" "NUMBER"). repeat split; compute_done.
  - exists (mkColumn "REGION" "STRING"). repeat split; compute_done.
Defined.

(** C4, as the specification states it, fails: a column whose name is empty
    is left out of the inventory, so a question declaring the empty name is
    dropped although the name matches that column. *)
Lemma column_verifier_contract_fails :
  Scenario.empty_name ≠ []
  ∧ ¬ column_verifier_contract (H := Scenario.library)
        [Scenario.declares_nothing] Scenario.empty_name.
Proof.
  split; [done|]. intros [_ Hiff].
  assert (Hin : Scenario.declares_nothing ∈ [Scenario.declares_nothing])
    by compute_done.
  apply Hiff in Hin as [_ Hkept].
  assert (Hout : Scenario.declares_nothing
                 ∈ verify_column_references (H := Scenario.library)
                     [Scenario.declares_nothing] Scenario.empty_name).
  { apply Hkept. intros cols [= <-]. repeat constructor.
    exists (mkTable "T" 1 [mkColumn "" "STRING"]), (mkColumn "" "STRING").
    repeat split; compute_done. }
  vm_compute in Hout. by apply elem_of_nil in Hout.
Qed.

(** ** Filters *)

Section filters.
Context {A : Type} (P : A → Prop) `{!∀ x, Decision (P x)}.

Lemma filter_none (l : list A) : Forall (λ x, ¬ P x) l → filter P l = [].
Proof.
  induction 1 as [|x l Hx _ IH]; [done|].
  by rewrite filter_cons_False, IH.
Qed.

Lemma filter_all (l : list A) : Forall P l → filter P l = l.
Proof.
  induction 1 as [|x l Hx _ IH]; [done|].
  by rewrite filter_cons_True, IH.
Qed.

Lemma Forall_filter_self (l : list A) : Forall P (filter P l).
Proof. apply Forall_forall. intros x Hx. by apply list_elem_of_filter in Hx as [? _]. Qed.

Lemma filter_sublist_mono (l k : list A) :
  l `sublist_of` k → filter P l `sublist_of` filter P k.
Proof.
  induction 1 as [|x l k _ IH|x l k _ IH]; [done| |].
  - rewrite !filter_cons. destruct (decide (P x)); [by constructor|done].
  - rewrite filter_cons. destruct (decide (P x)); [by constructor|done].
Qed.

Lemma length_filter_sublist (l k : list A) :
  l `sublist_of` k → length (filter P l) ≤ length (filter P k).
Proof. intros Hsub. apply sublist_length. by apply filter_sublist_mono. Qed.
End filters.

(** ** The services *)

Ltac run_service :=
  unfold mbind, service_bind, mret, service_ret in *; simpl in *.

Lemma call_cortex_with_retry_generator w :
  generator_replies (call_cortex_with_retry w).2 = generator_replies w.
Proof. unfold call_cortex_with_retry. by destruct (validator_replies w). Qed.

Lemma cortex_can_answer_generator w :
  generator_replies (cortex_can_answer w).2 = generator_replies w.
Proof. unfold cortex_can_answer. by destruct (analyst_replies w). Qed.

Lemma cortex_complete_questions_generator w :
  length (generator_replies w)
  ≤ S (length (generator_replies (cortex_complete_questions w).2)).
Proof.
  unfold cortex_complete_questions.
  destruct (generator_replies w); simpl; lia.
Qed.

(** ** Reading the verdict *)

Lemma nth_checked_elem analytics num q :
  nth_checked analytics num = Done (Some q) → q ∈ analytics.
Proof.
  unfold nth_checked. destruct (decide _); [|done].
  destruct (analytics !! _) eqn:Hq; [|done].
  intros [= <-]. by eapply list_elem_of_lookup_2.
Qed.

Lemma nth_checked_in_range analytics z :
  nth_checked analytics z = Done (in_range_entry analytics (JInt z)).
Proof.
  unfold nth_checked, in_range_entry. destruct (decide _) as [[Hlo Hhi]|]; [|done].
  destruct (analytics !! _) eqn:Hq; [done|].
  apply lookup_ge_None in Hq. unfold Py.len in Hhi. lia.
Qed.

Lemma pick_question_elem analytics num q :
  pick_question analytics num = Done (Some q) → q ∈ analytics.
Proof.
  destruct num; simpl; try done; try apply nth_checked_elem.
  by destruct (_ && _).
Qed.

Lemma collect_validated_elem analytics nums acc v :
  collect_validated analytics nums acc = Done v →
  ∃ picked, v = acc ++ picked ∧ Forall (λ q, q ∈ analytics) picked.
Proof.
  revert acc. induction nums as [|num nums IH]; intros acc; simpl.
  - intros [= <-]. exists []. by rewrite app_nil_r.
  - destruct (pick_question analytics num) as [[q|]|] eqn:Hpick; [| |done].
    + intros (picked & -> & Hall)%IH. exists (q :: picked).
      split; [by rewrite <- app_assoc|].
      constructor; [by eapply pick_question_elem|done].
    + apply IH.
Qed.

Lemma read_verdict_elem analytics result v :
  read_verdict analytics result = Done v → Forall (λ q, q ∈ analytics) v.
Proof.
  unfold read_verdict. destruct (get_valid_nums result) as [nums|]; [|done].
  destruct (iterate nums) as [items|]; [|done].
  by intros (picked & -> & Hall)%collect_validated_elem.
Qed.

Lemma pick_question_readable analytics num :
  ¬ raising_entry (length analytics) num →
  pick_question analytics num = Done (selected_entry analytics num).
Proof.
  destruct num as [|b|z|x| | |]; simpl; try (intros Hr; by destruct Hr).
  - intros _. apply (nth_checked_in_range analytics (if b then 1 else 0)%Z).
  - intros _. apply nth_checked_in_range.
  - intros Hout.
    destruct (Qle_bool 1 x) eqn:Hlo; [|done].
    destruct (Qle_bool x (inject_Z (Py.len analytics))) eqn:Hhi; [|done].
    apply Qle_bool_iff in Hlo, Hhi. by destruct Hout.
Qed.

Lemma pick_question_raises analytics num :
  raising_entry (length analytics) num → pick_question analytics num = Exn.
Proof.
  destruct num as [|b|z|x| | |]; simpl; try done.
  intros [Hlo Hhi]. apply Qle_bool_iff in Hlo, Hhi.
  unfold Py.len. by rewrite Hlo, Hhi.
Qed.

Lemma collect_validated_readable analytics nums acc :
  Forall (λ num, ¬ raising_entry (length analytics) num) nums →
  collect_validated analytics nums acc
  = Done (acc ++ selected_questions analytics nums).
Proof.
  intros Hread. revert acc.
  induction Hread as [|num nums Hnum _ IH]; intros acc; simpl.
  - by rewrite app_nil_r.
  - rewrite pick_question_readable by done.
    unfold selected_questions. simpl omap.
    destruct (selected_entry analytics num) as [q|]; [|apply IH].
    rewrite IH. by rewrite <- app_assoc.
Qed.

Lemma collect_validated_raises analytics nums acc :
  Exists (raising_entry (length analytics)) nums →
  collect_validated analytics nums acc = Exn.
Proof.
  intros Hraise. revert acc.
  induction Hraise as [num nums Hnum|num nums _ IH]; intros acc; simpl.
  - by rewrite pick_question_raises.
  - destruct (pick_question analytics num) as [[q|]|]; [apply IH|apply IH|done].
Qed.

Lemma selected_questions_elem analytics nums :
  Forall (λ q, q ∈ analytics) (selected_questions analytics nums).
Proof.
  apply Forall_forall. intros q (num & _ & Hq)%list_elem_of_omap.
  unfold selected_entry in Hq. destruct (entry_position num); [|done].
  destruct (decide _); [|done]. by eapply list_elem_of_lookup_2.
Qed.

Section verdict.
Context `{Library}.

(** C10, as amended.  The verdict is an object whose
    [valid_question_numbers] is a list, for [n] submitted analytics
    questions.  An integer entry, a boolean entry ([true] is 1, [false] is
    0) or a float entry outside 1..[n] is skipped.  When no entry is a float
    inside 1..[n] or a value that is no number, the accepted analytics
    questions are exactly the submitted questions at the in-range positions,
    in the order of the verdict, and no fallback is recorded.  When some
    entry is of that kind, the validator falls back: it accepts every
    analytics question and records [fallback_used].  In both cases every
    selected question is one of the submitted ones. *)
Theorem verdict_index_safety questions contexts w response members valid_nums :
  contexts ≠ [] →
  filter (λ q, ¬ is_search q) questions ≠ [] →
  (call_cortex_with_retry w).1 = Completion (Some response) →
  Py.strip response ≠ "" →
  json_loads (clean_response response) = Some (JObj members) →
  dict_get "valid_question_numbers" members = Some (JArr valid_nums) →
  let analytics_questions := filter (λ q, ¬ is_search q) questions in
  let out := (validate_questions_with_llm questions contexts w).1 in
  (Forall (λ num, ¬ raising_entry (length analytics_questions) num) valid_nums →
   out.1 = selected_questions analytics_questions valid_nums
           ++ filter is_search questions
   ∧ fallback_used out.2 = false)
  ∧ (Exists (raising_entry (length analytics_questions)) valid_nums →
     out.1 = analytics_questions ++ filter is_search questions
     ∧ fallback_used out.2 = true)
  ∧ Forall (λ q, q ∈ analytics_questions)
           (selected_questions analytics_questions valid_nums).
Proof.
  intros Hctx Hana Hreply Hblank Hjson Hkey analytics_questions out.
  assert (Hout : out
                 = match collect_validated analytics_questions valid_nums [] with
                   | Done validated_analytics =>
                       (validated_analytics ++ filter is_search questions,
                        mkDebug (length questions) true None
                                (length (validated_analytics
                                         ++ filter is_search questions))
                                false None)
                   | Exn =>
                       fallback_exit questions analytics_questions
                                     (filter is_search questions)
                                     "Unexpected error: "
                   end).
  { subst out analytics_questions. unfold validate_questions_with_llm.
    apply falsy_cons in Hctx. rewrite Hctx.
    destruct questions as [|q0 questions]; [done|]. simpl Py.falsy. simpl orb.
    apply falsy_cons in Hana. rewrite Hana.
    run_service. destruct (call_cortex_with_retry w) as [reply w'].
    simpl in Hreply. subst reply. simpl.
    assert (Hne : response ≠ "") by (intros ->; by apply Hblank).
    rewrite !bool_decide_eq_false_2 by done. simpl.
    rewrite Hjson. unfold read_verdict, get_valid_nums. rewrite Hkey. simpl.
    by destruct (collect_validated _ valid_nums []). }
  split; [|split].
  - intros Hread. rewrite Hout, collect_validated_readable by done. done.
  - intros Hraise. rewrite Hout, collect_validated_raises by done. done.
  - apply selected_questions_elem.
Qed.

End verdict.

Lemma verdict_index_safety_witness :
  (validate_questions_with_llm (H := Cases.library_mixed) Scenario.two_analytics
     Scenario.sales Cases.mixed_entries).1.1
  = [Scenario.ask "q1" "basic" "analytics"]
  ∧ (validate_questions_with_llm (H := Cases.library_mixed) Scenario.two_analytics
       Scenario.sales Scenario.string_entry).1.1
    = Scenario.two_analytics.
Proof.
  split.
  - destruct (verdict_index_safety (H := Cases.library_mixed)
                Scenario.two_analytics Scenario.sales Cases.mixed_entries
                (Scenario.verdict_text "true, 7.5, false, 3")
                [("valid_question_numbers",
                  JArr [JBool true; JFloat (15 # 2); JBool false; JInt 3])]
                [JBool true; JFloat (15 # 2); JBool false; JInt 3])
      as (Hread & _ & _);
      [done|done|reflexivity|done|reflexivity|reflexivity|].
    destruct Hread as [Hout _].
    + repeat constructor; simpl; try tauto.
      intros [_ Hhi]. by vm_compute in Hhi.
    + rewrite Hout. reflexivity.
  - destruct (verdict_index_safety (H := Cases.library_mixed)
                Scenario.two_analytics Scenario.sales Scenario.string_entry
                (Scenario.verdict_text ("1, " +:+ Scenario.dq +:+ "2" +:+ Scenario.dq))
                [("valid_question_numbers", JArr [JInt 1; JStr "2"])]
                [JInt 1; JStr "2"])
      as (_ & Hraise & _);
      [done|done|reflexivity|done|reflexivity|reflexivity|].
    destruct Hraise as [Hout _].
    + apply Exists_cons_tl, Exists_cons_hd. exact I.
    + rewrite Hout. reflexivity.
Defined.

(** ** The validator *)

Section validator.
Context `{Library}.
Implicit Types (questions : list Question) (contexts : list TableContext).

Lemma fallback_exit_result questions analytics search message :
  (fallback_exit questions analytics search message).1 = analytics ++ search
  ∧ fallback_used (fallback_exit questions analytics search message).2 = true.
Proof. done. Qed.

(** Whatever the service replies, the validator returns its input, or some
    of the non-search questions followed by all the search questions; it
    sends no generation request. *)
Lemma validate_questions_with_llm_shape questions contexts w :
  generator_replies (validate_questions_with_llm questions contexts w).2
  = generator_replies w
  ∧ ((validate_questions_with_llm questions contexts w).1.1 = questions
     ∨ ∃ accepted,
         Forall (λ q, q ∈ filter (λ q, ¬ is_search q) questions) accepted
         ∧ (validate_questions_with_llm questions contexts w).1.1
           = accepted ++ filter is_search questions).
Proof.
  unfold validate_questions_with_llm.
  destruct (Py.falsy questions || Py.falsy contexts); [split; [done|by left]|].
  destruct (Py.falsy (filter _ questions)); [split; [done|by left]|].
  run_service.
  pose proof (call_cortex_with_retry_generator w) as Hgen.
  destruct (call_cortex_with_retry w) as [reply w']. simpl in *.
  split; [done|]. right.
  assert (Hall : Forall (λ q, q ∈ filter (λ q, ¬ is_search q) questions)
                        (filter (λ q, ¬ is_search q) questions))
    by by apply Forall_forall.
  destruct reply as [|response]; [by eexists|].
  destruct (blank_response response); [by eexists|].
  destruct (json_loads _) as [result|]; [|by eexists].
  destruct (read_verdict _ result) as [accepted|] eqn:Hread; [|by eexists].
  exists accepted. split; [|done]. by eapply read_verdict_elem.
Qed.

Lemma validate_questions_with_llm_no_context questions w :
  validate_questions_with_llm questions [] w
  = ((questions,
      mkDebug (length questions) true
              (Some "No validation needed (empty questions or contexts)")
              (length questions) false None), w).
Proof.
  unfold validate_questions_with_llm. by rewrite orb_true_r.
Qed.

(** C5.  The search-category questions of the output of
    [validate_questions_with_llm] are the search-category questions of its
    input, in the same order and number, for every reply of the validation
    service: none is dropped and none depends on the verdict. *)
Theorem search_questions_auto_accepted questions contexts w :
  filter is_search (validate_questions_with_llm questions contexts w).1.1
  = filter is_search questions.
Proof.
  destruct (validate_questions_with_llm_shape questions contexts w)
    as [_ [->|(accepted & Hacc & ->)]]; [done|].
  rewrite filter_app, (filter_none _ accepted).
  - simpl. apply filter_all, Forall_filter_self.
  - eapply Forall_impl; [exact Hacc|]. intros q Hq.
    by apply list_elem_of_filter in Hq as [? _].
Qed.

(** C3.  When the validator reaches the validation service (there is a
    schema context and at least one non-search question) and the call
    raises, or the response is empty, or it is not JSON, the validator
    returns all the non-search questions followed by all the search
    questions, which is a rearrangement of its whole input, and its debug
    record has [fallback_used = true]. *)
Theorem validator_fallback_accepts_all questions contexts w :
  contexts ≠ [] →
  filter (λ q, ¬ is_search q) questions ≠ [] →
  unusable_reply (call_cortex_with_retry w).1 →
  ∃ debug_info,
    validate_questions_with_llm questions contexts w
    = ((filter (λ q, ¬ is_search q) questions ++ filter is_search questions,
        debug_info),
       (call_cortex_with_retry w).2)
    ∧ fallback_used debug_info = true
    ∧ validation_success debug_info = false
    ∧ filter (λ q, ¬ is_search q) questions ++ filter is_search questions
      ≡ₚ questions.
Proof.
  intros Hctx Hana Hreply.
  assert (Hperm : filter (λ q, ¬ is_search q) questions
                  ++ filter is_search questions ≡ₚ questions).
  { rewrite (comm (++)). apply filter_app_complement. }
  unfold validate_questions_with_llm.
  apply falsy_cons in Hctx. rewrite Hctx.
  destruct questions as [|q0 questions]; [done|]. simpl Py.falsy. simpl orb.
  apply falsy_cons in Hana. rewrite Hana.
  run_service.
  destruct (call_cortex_with_retry w) as [reply w']. simpl in *.
  destruct reply as [|[response|]]; simpl.
  - eexists. by repeat split.
  - destruct Hreply as [Hblank|Hjson].
    + rewrite Hblank. destruct (bool_decide (response = "")); simpl;
        eexists; by repeat split.
    + rewrite Hjson. destruct (_ || _); eexists; by repeat split.
  - eexists. by repeat split.
Qed.

End validator.

Lemma validator_fallback_accepts_all_witness :
  (validate_questions_with_llm (H := Scenario.library) Scenario.two_and_two
     Scenario.sales
     (mkWorld [Completion (Some "I cannot decide.")] [] [])).1.1
  = [Scenario.ask "q1" "basic" "analytics"; Scenario.ask "q2" "advanced" "analytics";
     Scenario.ask "f1" "basic" "search"; Scenario.ask "f2" "basic" "search"].
Proof.
  destruct (validator_fallback_accepts_all (H := Scenario.library)
              Scenario.two_and_two Scenario.sales
              (mkWorld [Completion (Some "I cannot decide.")] [] []))
    as (debug_info & Heq & _).
  - done.
  - done.
  - right. reflexivity.
  - rewrite Heq. reflexivity.
Defined.

(** ** The selector *)

Lemma select_best_questions_bound pool target_count min_advanced :
  length (select_best_questions pool target_count min_advanced) ≤ target_count.
Proof.
  unfold select_best_questions.
  destruct (decide (length pool ≤ target_count)); [done|].
  cbv zeta.
  match goal with
  | |- context [decide (Py.len (Py.slice_to ?m ?a) < ?m)%Z] =>
      destruct (decide (Py.len (Py.slice_to m a) < m)%Z)
  end; cbv beta iota zeta; rewrite slice_to_nonneg; apply firstn_le_length.
Qed.

(** Above the target size, a pool with enough advanced questions has its
    first [min_advanced] advanced questions at the head of the selection. *)
Lemma select_best_questions_head pool target_count min_advanced :
  target_count < length pool →
  min_advanced ≤ length (filter (has_difficulty "advanced") pool) →
  ∃ rest,
    select_best_questions pool target_count min_advanced
    = take target_count
        (take min_advanced (filter (has_difficulty "advanced") pool) ++ rest).
Proof.
  intros Hpool Hadv. unfold select_best_questions.
  destruct (decide (length pool ≤ target_count)); [lia|].
  cbv zeta. rewrite !(slice_to_nonneg min_advanced).
  match goal with
  | |- context [decide (Py.len ?s < ?m)%Z] =>
      destruct (decide (Py.len s < m)%Z) as [Hlt|_]
  end.
  { unfold Py.len in Hlt. rewrite length_take in Hlt. lia. }
  cbv beta iota zeta.
  match goal with
  | |- context [if ?c then _ else _] => destruct c
  end; eexists; rewrite slice_to_nonneg, <- ?app_assoc; reflexivity.
Qed.

(** C7, as amended.  [select_best_questions] returns at most [target_count]
    questions; when the pool is larger than [target_count], [min_advanced]
    does not exceed [target_count] and the pool holds at least [min_advanced]
    advanced questions of any category, the selection starts with the first
    [min_advanced] advanced questions of the pool, which truncation never
    removes, so it holds at least [min_advanced] advanced questions. *)
Theorem select_best_questions_quota pool target_count min_advanced :
  length (select_best_questions pool target_count min_advanced) ≤ target_count
  ∧ (target_count < length pool →
     min_advanced ≤ target_count →
     min_advanced ≤ length (filter (has_difficulty "advanced") pool) →
     take min_advanced (select_best_questions pool target_count min_advanced)
     = take min_advanced (filter (has_difficulty "advanced") pool)
     ∧ min_advanced
       ≤ length (filter (has_difficulty "advanced")
                        (select_best_questions pool target_count min_advanced))).
Proof.
  split; [apply select_best_questions_bound|].
  intros Hpool Hmin Hadv.
  destruct (select_best_questions_head pool target_count min_advanced Hpool Hadv)
    as [rest Hsel].
  assert (Hhead : take min_advanced
                    (select_best_questions pool target_count min_advanced)
                  = take min_advanced (filter (has_difficulty "advanced") pool)).
  { rewrite Hsel, take_take, Nat.min_l by done.
    rewrite take_app_le by (rewrite length_take; lia).
    by rewrite take_idemp. }
  split; [done|].
  transitivity (length (filter (has_difficulty "advanced")
                  (take min_advanced
                     (select_best_questions pool target_count min_advanced)))).
  - rewrite Hhead, filter_all.
    + rewrite length_take. lia.
    + apply Forall_take, Forall_filter_self.
  - apply length_filter_sublist, sublist_take.
Qed.

Lemma select_best_questions_quota_witness :
  map text (take 1 (select_best_questions Scenario.one_advanced_pool 4 1)) = ["a1"].
Proof.
  destruct (select_best_questions_quota Scenario.one_advanced_pool 4 1)
    as [_ Hquota].
  destruct Hquota as [Hhead _].
  - simpl. lia.
  - lia.
  - vm_compute. lia.
  - rewrite Hhead. reflexivity.
Defined.

(** C7, as the specification states it, fails twice over.  The selector groups
    by difficulty alone, so two advanced search questions fill the quota and
    the two advanced analytics questions of the pool are left out; and a
    quota above the target size cannot be met by a list cut to that size. *)
Lemma selector_quota_contract_fails :
  ¬ selector_quota_contract Scenario.mixed_pool 2 2
  ∧ ¬ selector_quota_contract
        [Scenario.ask "a1" "advanced" "analytics";
         Scenario.ask "a2" "advanced" "analytics";
         Scenario.ask "a3" "advanced" "analytics"] 1 2.
Proof.
  split; intros [_ Hquota]; vm_compute in Hquota.
  - assert (Hle : 2 ≤ 0) by (apply Hquota; lia). lia.
  - assert (Hle : 2 ≤ 1) by (apply Hquota; lia). lia.
Qed.

(** With fewer advanced questions than [min_advanced] the list [advanced] is
    not consumed, and its head is selected a second time. *)
Lemma select_best_questions_repeats :
  map text (select_best_questions Scenario.one_advanced_pool 4 2)
  = ["a1"; "i1"; "a1"; "i2"].
Proof. reflexivity. Qed.

(** ** The semantic tester *)

Lemma semantic_test_loop_generator questions answerable failed w :
  generator_replies (semantic_test_loop questions answerable failed w).2
  = generator_replies w.
Proof.
  revert answerable failed w.
  induction questions as [|q questions IH]; intros answerable failed w; [done|].
  simpl. destruct (decide (is_search q)); [apply IH|].
  run_service.
  pose proof (cortex_can_answer_generator w) as Hgen.
  destruct (cortex_can_answer w) as [reply w']. simpl in Hgen.
  destruct reply as [| |can_answer]; [| |destruct (Py.contains _ _)];
    rewrite IH; exact Hgen.
Qed.

Lemma test_questions_against_semantic_model_generator questions info w :
  generator_replies (test_questions_against_semantic_model questions info w).2
  = generator_replies w.
Proof.
  unfold test_questions_against_semantic_model.
  destruct (no_view info); [done|]. run_service.
  pose proof (semantic_test_loop_generator questions [] [] w) as Hgen.
  by destruct (semantic_test_loop questions [] [] w) as [[? ?] ?].
Qed.

(** Without a view name the tester reports every question as answerable. *)
Lemma test_questions_against_semantic_model_skips questions info w :
  no_view info = true →
  test_questions_against_semantic_model questions info w
  = (mkSemantic questions [] true, w).
Proof. intros Hno. unfold test_questions_against_semantic_model. by rewrite Hno. Qed.

(** ** The retry loop *)

Section retry.
Context `{Library}.

(** A round keeps what was accumulated and sends at most one generation
    request. *)
Lemma retry_round_accumulates req retry_attempt accumulated w :
  accumulated `prefix_of` (retry_round req retry_attempt accumulated w).1.2
  ∧ length (generator_replies w)
    ≤ S (length (generator_replies (retry_round req retry_attempt accumulated w).2)).
Proof.
  unfold retry_round. destruct (decide _); [split; [done|simpl; lia]|].
  run_service.
  pose proof (cortex_complete_questions_generator w) as Hgen.
  destruct (cortex_complete_questions w) as [g w1]. simpl in Hgen.
  destruct g as [| |questions_data]; [by split|by split|].
  pose proof (validate_questions_with_llm_shape
                (map (tag_retry retry_attempt) questions_data)
                (rich_table_contexts req) w1) as [Hval _].
  destruct (validate_questions_with_llm _ _ w1) as [[validated_retry ?] w2].
  simpl in Hval.
  destruct (model_given _ && negb _).
  - pose proof (test_questions_against_semantic_model_generator
                  validated_retry (semantic_model_info req) w2) as Htest.
    destruct (test_questions_against_semantic_model _ _ w2) as [results w3].
    simpl in *. split; [by apply prefix_app_r|]. rewrite Htest, Hval. exact Hgen.
  - simpl. split; [by apply prefix_app_r|]. rewrite Hval. exact Hgen.
Qed.

Lemma retry_loop_invariant req retry_attempt accumulated w :
  retry_attempt ≤ MAX_RETRIES →
  retry_attempt ≤ (retry_loop req retry_attempt accumulated w).1.1
  ∧ (retry_loop req retry_attempt accumulated w).1.1 ≤ MAX_RETRIES
  ∧ accumulated `prefix_of` (retry_loop req retry_attempt accumulated w).1.2
  ∧ length (generator_replies w) + retry_attempt
    ≤ length (generator_replies (retry_loop req retry_attempt accumulated w).2)
      + (retry_loop req retry_attempt accumulated w).1.1.
Proof.
  funelim (retry_loop req retry_attempt accumulated w);
  intros Hle; simpl; try done;
  match goal with
  | Hround : retry_round ?r ?k ?a ?w0 = _ |- _ =>
      pose proof (retry_round_accumulates r k a w0) as [Hpre Hgen];
      rewrite Hround in Hpre, Hgen; simpl in Hpre, Hgen
  end.
- repeat split; try done; lia.
- match goal with
  | IH : ?k ≤ MAX_RETRIES → _ |- _ =>
      destruct IH as (Hlo & Hhi & Hacc & Hreq); [lia|]
  end.
  repeat split; [lia|done|by etransitivity|lia].
Qed.

(** C9.  For every script of service replies and every pool of validated
    questions the distribution retry loop returns; it has then run at most
    [MAX_RETRIES] = 3 rounds and sent at most that many generation
    requests, and the list it returns extends the list it started from. *)
Theorem retry_loop_bounded req accumulated w :
  (retry_loop req 0 accumulated w).1.1 ≤ 3
  ∧ accumulated `prefix_of` (retry_loop req 0 accumulated w).1.2
  ∧ length (generator_replies w)
    ≤ length (generator_replies (retry_loop req 0 accumulated w).2) + 3.
Proof.
  destruct (retry_loop_invariant req 0 accumulated w)
    as (_ & Hhi & Hacc & Hreq); [unfold MAX_RETRIES; lia|].
  unfold MAX_RETRIES in Hhi. repeat split; [done|done|lia].
Qed.

End retry.

(** ** The run *)

Section run.
Context `{Library}.

Lemma target_q_dicts_length target_questions_list :
  length (target_q_dicts target_questions_list) = length target_questions_list.
Proof. unfold target_q_dicts. apply length_map. Qed.

(** The target phase raises exactly when the validator returns fewer
    questions than there are targets. *)
Lemma validate_targets_raises req w :
  length (validate_questions_with_llm (target_q_dicts (target_questions req))
            (rich_table_contexts req) w).1.1
  < length (target_questions req) →
  (validate_targets req w).1
  = Raises (error_msg
              (length (target_questions req)
               - length (validate_questions_with_llm
                           (target_q_dicts (target_questions req))
                           (rich_table_contexts req) w).1.1)
              (length (target_questions req))).
Proof.
  intros Hfew. unfold validate_targets.
  destruct (Py.falsy (rich_table_contexts req)) eqn:Hctx.
  { apply falsy_nil in Hctx. rewrite Hctx in Hfew.
    rewrite validate_questions_with_llm_no_context in Hfew. simpl in Hfew.
    rewrite target_q_dicts_length in Hfew. lia. }
  destruct (Py.falsy (target_questions req)) eqn:Htargets.
  { apply falsy_nil in Htargets. rewrite Htargets in Hfew. simpl in Hfew. lia. }
  run_service.
  destruct (validate_questions_with_llm _ _ w) as [[validated_targets ?] ?].
  simpl in *. by destruct (decide _).
Qed.

(** C1, as amended.  When the validator accepts fewer target questions than
    were supplied, [generate_contextual_questions] raises and returns no
    list; the exception carries the message of line 631, which reports how
    many target questions failed out of how many, not their texts. *)
Theorem target_questions_all_or_nothing req w :
  length (validate_questions_with_llm (target_q_dicts (target_questions req))
            (rich_table_contexts req) w).1.1
  < length (target_questions req) →
  (generate_contextual_questions req w).1
  = Raises (error_msg
              (length (target_questions req)
               - length (validate_questions_with_llm
                           (target_q_dicts (target_questions req))
                           (rich_table_contexts req) w).1.1)
              (length (target_questions req))).
Proof.
  intros Hfew. apply validate_targets_raises in Hfew.
  unfold generate_contextual_questions. run_service.
  destruct (validate_targets req w) as [targets w1]. simpl in Hfew.
  by rewrite Hfew.
Qed.

(** The validated targets are empty unless there is a schema context. *)
Lemma validate_targets_no_context req w validated debug w' :
  validate_targets req w = (Returns (validated, debug), w') →
  rich_table_contexts req = [] → validated = [].
Proof.
  unfold validate_targets. intros Hrun Hctx. rewrite Hctx in Hrun.
  simpl in Hrun. by injection Hrun as <- _ _.
Qed.

Lemma validate_and_accumulate_pass_rate req questions w :
  let validation_debug := (validate_and_accumulate req questions w).1.2 in
  fallback_used
    <$> final_attempt (attempt_1 validation_debug) (attempt_2 validation_debug)
  = Some true →
  final_pass_rate validation_debug = 0%Q
  ∧ used_fallback validation_debug = true.
Proof.
  unfold validate_and_accumulate. run_service.
  destruct (validate_questions_with_llm questions _ w)
    as [[validated_questions debug_info_1] w1].
  destruct (decide (length validated_questions < num_questions req)); run_service.
  - destruct (generate_questions_with_llm _ w1) as [new_questions w2].
    destruct (validate_questions_with_llm new_questions _ w2)
      as [[validated_new debug_info_2] w3].
    simpl. intros [= ->]. done.
  - intros [= ->]. done.
Qed.

(** The debug record of a run is the one [validate_and_accumulate] built. *)
Lemma question_validation_debug_origin req w result validation_debug :
  (generate_contextual_questions req w).1 = Returns result →
  question_validation_debug result = Some validation_debug →
  ∃ questions w1,
    validation_debug = (validate_and_accumulate req questions w1).1.2.
Proof.
  unfold generate_contextual_questions. run_service.
  destruct (validate_targets req w) as [[[validated_targets target_debug]|] w1];
    [|done].
  destruct (generate_questions_with_llm _ w1) as [questions w2].
  destruct (negb _ && negb _).
  - destruct (validate_and_accumulate req questions w2)
      as [[validated_questions debug] w3] eqn:Hacc.
    destruct (semantic_gate req validated_questions w3) as [tested w4].
    destruct (retry_loop req 0 tested w4) as [[rounds accumulated] w5].
    destruct (targeted_generation req accumulated w5) as [validated w6].
    simpl. intros [= <-]. simpl. intros [= <-].
    exists questions, w2. by rewrite Hacc.
  - simpl. intros [= <-]. done.
Qed.

(** What the run does guarantee: whenever the last main validation attempt
    ([attempt_2] when the accumulation retry ran, [attempt_1] otherwise)
    recorded [fallback_used], the reported [final_pass_rate] is 0 and
    [used_fallback] is set. *)
Theorem fallback_transparency req w result validation_debug :
  (generate_contextual_questions req w).1 = Returns result →
  question_validation_debug result = Some validation_debug →
  fallback_used
    <$> final_attempt (attempt_1 validation_debug) (attempt_2 validation_debug)
  = Some true →
  final_pass_rate validation_debug = 0%Q
  ∧ used_fallback validation_debug = true.
Proof.
  intros Hrun Hdebug Hfallback.
  destruct (question_validation_debug_origin _ _ _ _ Hrun Hdebug)
    as (questions & w1 & ->).
  by apply validate_and_accumulate_pass_rate.
Qed.

Lemma include_targets_generated validated_targets validated_questions n i q :
  include_targets validated_targets validated_questions n !! i = Some q →
  length validated_targets ≤ i →
  text q ∉ map text validated_targets.
Proof.
  unfold include_targets. destruct (Py.falsy validated_targets) eqn:Hnone.
  { apply falsy_nil in Hnone as ->. intros _ _. apply not_elem_of_nil. }
  intros [Hq _]%lookup_take_Some Hi.
  apply lookup_app_Some in Hq as [Hq|[_ Hq]].
  { apply lookup_lt_Some in Hq. lia. }
  apply list_elem_of_lookup_2, list_elem_of_filter in Hq as [Hq _].
  by rewrite elem_of_list_to_set in Hq.
Qed.

(** C8, as amended.  In the list a run returns, the questions placed after
    the validated target questions never carry the text of a validated
    target question. *)
Theorem generated_questions_avoid_target_texts
    req w validated_targets target_debug w1 result i q :
  validate_targets req w = (Returns (validated_targets, target_debug), w1) →
  (generate_contextual_questions req w).1 = Returns result →
  final_questions result !! i = Some q →
  length validated_targets ≤ i →
  text q ∉ map text validated_targets.
Proof.
  intros Htargets. unfold generate_contextual_questions. run_service.
  rewrite Htargets.
  destruct (generate_questions_with_llm _ w1) as [questions w2].
  destruct (Py.falsy (rich_table_contexts req)) eqn:Hctx; simpl.
  { apply falsy_nil in Hctx.
    rewrite (validate_targets_no_context _ _ _ _ _ Htargets Hctx).
    intros _ _ _. apply not_elem_of_nil. }
  destruct (Py.falsy questions) eqn:Hquestions; simpl.
  { apply falsy_nil in Hquestions as ->. intros [= <-]. simpl.
    by rewrite take_nil, lookup_nil. }
  destruct (validate_and_accumulate req questions w2)
    as [[validated_questions debug] w3].
  destruct (semantic_gate req validated_questions w3) as [tested w4].
  destruct (retry_loop req 0 tested w4) as [[rounds accumulated] w5].
  destruct (targeted_generation req accumulated w5) as [validated w6].
  simpl. intros [= <-]. simpl. apply include_targets_generated.
Qed.

(** After the target phase nothing raises: a run whose targets pass returns
    a list. *)
Lemma generate_contextual_questions_returns req w validated debug w1 :
  validate_targets req w = (Returns (validated, debug), w1) →
  ∃ result, (generate_contextual_questions req w).1 = Returns result.
Proof.
  intros Htargets. unfold generate_contextual_questions. run_service.
  rewrite Htargets.
  destruct (generate_questions_with_llm _ w1) as [questions w2].
  destruct (negb _ && negb _); [|by eexists].
  destruct (validate_and_accumulate req questions w2) as [[? ?] w3].
  destruct (semantic_gate req _ w3) as [tested w4].
  destruct (retry_loop req 0 tested w4) as [[rounds accumulated] w5].
  destruct (targeted_generation req accumulated w5) as [? w6].
  by eexists.
Qed.

End run.

(** ** The properties at the scenarios *)

Lemma target_questions_all_or_nothing_witness :
  (generate_contextual_questions (H := Scenario.library)
     (Scenario.wants "Which region sells most?") Scenario.reject_all).1
  = Raises (error_msg 1 1).
Proof.
  refine (target_questions_all_or_nothing (H := Scenario.library)
            (Scenario.wants "Which region sells most?") Scenario.reject_all _).
  vm_compute. lia.
Defined.

(** C1, as the specification states it, fails: two runs whose failing target
    questions differ raise the same exception, so the failing texts cannot be
    read off the error. *)
Lemma target_error_contract_fails :
  ¬ ∃ texts_of,
      target_error_contract (H := Scenario.library) texts_of
        (Scenario.wants "alpha") Scenario.reject_all
      ∧ target_error_contract (H := Scenario.library) texts_of
          (Scenario.wants "beta") Scenario.reject_all.
Proof.
  intros (texts_of & Halpha & Hbeta).
  destruct Halpha as (ma & Hma & Hta); [vm_compute; lia|].
  destruct Hbeta as (mb & Hmb & Htb); [vm_compute; lia|].
  vm_compute in Hma, Hmb. injection Hma as <-. injection Hmb as <-.
  rewrite Hta in Htb. vm_compute in Htb. discriminate.
Qed.

(** The comparison at line 629 counts the entries of the verdict: when the
    verdict lists the first of two target questions twice, two questions come
    back, nothing is raised, and the second target was never accepted. *)
Lemma repeated_verdict_entry_passes_targets :
  (validate_targets (H := Scenario.library) Scenario.two_targets
     Scenario.first_twice).1
  = Returns (target_q_dicts ["What is the total revenue?";
                             "What is the total revenue?"],
             Some (mkDebug 2 true None 2 false None)).
Proof. vm_compute. reflexivity. Qed.

Lemma fallback_transparency_witness :
  ∃ result validation_debug,
    (generate_contextual_questions (H := Scenario.library)
       (mkRequest [] None 2 Scenario.sales)
       (mkWorld [Completion (Some "")]
                [GenQuestions Scenario.two_and_two] [])).1 = Returns result
    ∧ question_validation_debug result = Some validation_debug
    ∧ final_pass_rate validation_debug = 0%Q.
Proof.
  eexists _, _. split; [reflexivity|]. split; [reflexivity|].
  refine (proj1 (fallback_transparency (H := Scenario.library)
                   (mkRequest [] None 2 Scenario.sales)
                   (mkWorld [Completion (Some "")]
                            [GenQuestions Scenario.two_and_two] [])
                   _ _ eq_refl eq_refl eq_refl)).
Defined.

(** Fallback transparency fails at this run: the first validation fell back
    and accepted its question unchecked, the accumulation retry got a verdict,
    and the run reports a pass rate of 2/2. *)
Lemma fallback_transparency_contract_fails :
  ¬ fallback_transparency_contract (H := Scenario.library)
      Scenario.two_questions Scenario.fallback_then_verdict.
Proof.
  intros Hclaim.
  specialize (Hclaim _ _ eq_refl eq_refl (or_introl eq_refl)).
  vm_compute in Hclaim. discriminate.
Qed.

(** C2 at the failing input.  Two questions are asked for against a deployed
    view and each generation yields one.  The first validation gets an empty
    response and falls back, the accumulation retry gets a verdict, the
    tester answers yes; the run returns both questions and reports
    [final_pass_rate] 2/2 with [used_fallback] unset, although [attempt_1]
    recorded [fallback_used]. *)
Theorem first_attempt_fallback_unreported :
  ∃ result validation_debug debug_info_1,
    (generate_contextual_questions (H := Scenario.library)
       Scenario.two_with_view Cases.fallback_then_verdict_view).1
    = Returns result
    ∧ map text (final_questions result) = ["a"; "b"]
    ∧ question_validation_debug result = Some validation_debug
    ∧ attempt_1 validation_debug = Some debug_info_1
    ∧ fallback_used debug_info_1 = true
    ∧ used_fallback validation_debug = false
    ∧ (final_pass_rate validation_debug == 1)%Q.
Proof.
  eexists _, _, _. split; [reflexivity|].
  split; [reflexivity|]. split; [reflexivity|]. split; [reflexivity|].
  split; [reflexivity|]. split; [reflexivity|]. vm_compute. reflexivity.
Qed.

Lemma generated_questions_avoid_target_texts_witness :
  text (set_source_ai Scenario.undeclared)
  ∉ map text (target_q_dicts ["What is the total revenue?"]).
Proof.
  refine (generated_questions_avoid_target_texts (H := Scenario.library)
            (mkRequest ["What is the total revenue?"] None 2 Scenario.sales)
            (mkWorld [Completion (Some ""); Completion (Some "")]
                     [GenQuestions [Scenario.undeclared]; GenRaises; GenRaises;
                      GenRaises; GenRaises;
                      GenQuestions [Scenario.undeclared;
                                    Scenario.ask "What is the total revenue?"
                                                 "basic" "analytics"]]
                     [])
            (target_q_dicts ["What is the total revenue?"]) _ _ _ 1 _
            eq_refl eq_refl _ _).
  - reflexivity.
  - simpl. lia.
Defined.

(** C8, as the specification states it, fails: nothing removes a text the
    generator produced twice. *)
Lemma no_duplicate_texts_contract_fails :
  ¬ no_duplicate_texts_contract (H := Scenario.library)
      Scenario.no_context Scenario.repeats.
Proof.
  intros Hclaim. specialize (Hclaim _ eq_refl).
  vm_compute in Hclaim. apply NoDup_cons in Hclaim as [Hnotin _].
  apply Hnotin. compute_done.
Qed.

(** The same on the validated path: both copies pass the validator and the
    semantic test and are returned. *)
Lemma validated_run_keeps_repeated_text :
  (λ r, match r with
        | Returns result => map text (final_questions result)
        | Raises _ => []
        end)
    (generate_contextual_questions (H := Scenario.library)
       Scenario.two_with_view Scenario.repeats_validated).1
  = ["top regions"; "top regions"].
Proof. vm_compute. reflexivity. Qed.

(** A run whose generator never repeats itself still returns a question
    twice, because [select_best_questions] selects the only advanced question
    a second time. *)
Lemma run_repeats_selected_question :
  (λ r, match r with
        | Returns result => map text (final_questions result)
        | Raises _ => []
        end)
    (generate_contextual_questions (H := Scenario.library)
       Scenario.four_questions Scenario.one_advanced_run).1
  = ["a1"; "i1"; "i2"; "a1"].
Proof. vm_compute. reflexivity. Qed.

(** With a semantic model description that has no view name the tester
    reports every candidate as answerable, and the run keeps them all. *)
Lemma semantic_tester_skips_without_view_name :
  test_questions_against_semantic_model Scenario.two_analytics
    Scenario.synonyms_only Scenario.silent
  = (mkSemantic Scenario.two_analytics [] true, Scenario.silent)
  ∧ semantic_gate (mkRequest [] Scenario.synonyms_only 12 Scenario.sales)
      Scenario.two_analytics Scenario.silent
    = (Scenario.two_analytics, Scenario.silent).
Proof. split; vm_compute; reflexivity. Qed.





(** C10, as stated, fails: an entry that is a string is not skipped; the
    comparison raises, the validator falls back and accepts both questions
    where the in-range selection holds the first one only. *)
Lemma index_safety_contract_fails :
  ¬ index_safety_contract Scenario.two_analytics [JInt 1; JStr "2"]
  ∧ (validate_questions_with_llm (H := Scenario.library) Scenario.two_analytics
       Scenario.sales Scenario.string_entry).1
    = (Scenario.two_analytics,
       mkDebug 2 false (Some "Unexpected error: ") 2 true (Some 2)).
Proof.
  split; [|vm_compute; reflexivity].
  unfold index_safety_contract. vm_compute. discriminate.
Qed.

(** * Further properties of the pipeline *)

(** ** The validator *)

Section validator_more.
Context `{Library}.
Implicit Types (questions : list Question) (contexts : list TableContext).

(** X1.  Every question [validate_questions_with_llm] returns is one of the
    questions it was given, whatever the service replies. *)
Theorem validate_questions_with_llm_subset questions contexts w :
  (validate_questions_with_llm questions contexts w).1.1 ⊆ questions.
Proof.
  destruct (validate_questions_with_llm_shape questions contexts w)
    as [_ [->|(accepted & Hacc & ->)]]; [done|].
  intros q [Hq|Hq]%elem_of_app.
  - eapply Forall_forall in Hacc; [|exact Hq].
    by apply list_elem_of_filter in Hacc as [_ ?].
  - by apply list_elem_of_filter in Hq as [_ ?].
Qed.

(** X2.  The debug record always agrees with the result: [total_questions]
    is the size of the input, [validated_count] the size of the output,
    [validation_success] is set exactly when no fallback was used, and
    [fallback_count] is present exactly in the fallback, where it is the
    number of non-search questions. *)
Theorem debug_info_consistent questions contexts w :
  total_questions (validate_questions_with_llm questions contexts w).1.2
  = length questions
  ∧ validated_count (validate_questions_with_llm questions contexts w).1.2
    = length (validate_questions_with_llm questions contexts w).1.1
  ∧ validation_success (validate_questions_with_llm questions contexts w).1.2
    = negb (fallback_used (validate_questions_with_llm questions contexts w).1.2)
  ∧ fallback_count (validate_questions_with_llm questions contexts w).1.2
    = (if fallback_used (validate_questions_with_llm questions contexts w).1.2
       then Some (length (filter (λ q, ¬ is_search q) questions)) else None).
Proof.
  unfold validate_questions_with_llm.
  destruct (Py.falsy questions || Py.falsy contexts); [done|].
  destruct (Py.falsy (filter _ questions)); [done|].
  run_service. destruct (call_cortex_with_retry w) as [reply w'].
  destruct reply as [|response]; [done|].
  destruct (blank_response response); [done|].
  destruct (json_loads _) as [result|]; [|done].
  by destruct (read_verdict _ result).
Qed.

(** X3.  One validation sends at most one request to the validation service
    and none to the generator or to the semantic tester. *)
Theorem validate_questions_with_llm_one_call questions contexts w :
  (validator_replies (validate_questions_with_llm questions contexts w).2
   = validator_replies w
   ∨ validator_replies (validate_questions_with_llm questions contexts w).2
     = tail (validator_replies w))
  ∧ generator_replies (validate_questions_with_llm questions contexts w).2
    = generator_replies w
  ∧ analyst_replies (validate_questions_with_llm questions contexts w).2
    = analyst_replies w.
Proof.
  unfold validate_questions_with_llm.
  destruct (Py.falsy questions || Py.falsy contexts); [by repeat split; [left|..]|].
  destruct (Py.falsy (filter _ questions)); [by repeat split; [left|..]|].
  run_service. unfold call_cortex_with_retry.
  destruct (validator_replies w) as [|reply rest] eqn:Hreplies; simpl.
  - rewrite Hreplies. by repeat split; [left|..].
  - by repeat split; [right|..].
Qed.

(** X4.  With no question, no schema context, or search questions only, the
    validator returns its input as it is, reports success and calls no
    service. *)
Theorem validate_questions_with_llm_nothing_to_check questions contexts w :
  questions = [] ∨ contexts = [] ∨ Forall is_search questions →
  (validate_questions_with_llm questions contexts w).1.1 = questions
  ∧ fallback_used (validate_questions_with_llm questions contexts w).1.2 = false
  ∧ validation_success (validate_questions_with_llm questions contexts w).1.2 = true
  ∧ (validate_questions_with_llm questions contexts w).2 = w.
Proof.
  intros Hnothing. unfold validate_questions_with_llm.
  destruct (Py.falsy questions || Py.falsy contexts) eqn:Hempty; [done|].
  apply orb_false_iff in Hempty as [Hq Hc].
  apply falsy_cons in Hq, Hc.
  destruct Hnothing as [?|[?|Hsearch]]; [done|done|].
  rewrite (filter_none (λ q, ¬ is_search q) questions); [done|].
  eapply Forall_impl; [exact Hsearch|]. intros q Hq' Hn. by apply Hn.
Qed.

(** X5.  A verdict that is a JSON object without the key
    [valid_question_numbers] rejects every non-search question: only the
    search questions are returned, and the round counts as a successful
    validation, not as a fallback. *)
Theorem verdict_without_key_rejects_all questions contexts w response members :
  contexts ≠ [] →
  filter (λ q, ¬ is_search q) questions ≠ [] →
  (call_cortex_with_retry w).1 = Completion (Some response) →
  Py.strip response ≠ "" →
  json_loads (clean_response response) = Some (JObj members) →
  dict_get "valid_question_numbers" members = None →
  (validate_questions_with_llm questions contexts w).1.1
  = filter is_search questions
  ∧ fallback_used (validate_questions_with_llm questions contexts w).1.2 = false
  ∧ validation_success (validate_questions_with_llm questions contexts w).1.2 = true.
Proof.
  intros Hctx Hana Hreply Hblank Hjson Hkey.
  unfold validate_questions_with_llm.
  apply falsy_cons in Hctx. rewrite Hctx.
  destruct questions as [|q0 questions]; [done|]. simpl Py.falsy. simpl orb.
  apply falsy_cons in Hana. rewrite Hana.
  run_service. destruct (call_cortex_with_retry w) as [reply w'].
  simpl in Hreply. subst reply. simpl.
  assert (Hne : response ≠ "") by (intros ->; by apply Hblank).
  rewrite !bool_decide_eq_false_2 by done. simpl.
  rewrite Hjson. unfold read_verdict, get_valid_nums. rewrite Hkey. done.
Qed.

(** X6.  A verdict that parses as JSON but is not an object (a bare list of
    numbers, a number, a string) is not read at all: the validator falls back
    and accepts every non-search question. *)
Theorem verdict_not_an_object_accepts_all questions contexts w response result :
  contexts ≠ [] →
  filter (λ q, ¬ is_search q) questions ≠ [] →
  (call_cortex_with_retry w).1 = Completion (Some response) →
  json_loads (clean_response response) = Some result →
  (∀ members, result ≠ JObj members) →
  (validate_questions_with_llm questions contexts w).1.1
  = filter (λ q, ¬ is_search q) questions ++ filter is_search questions
  ∧ fallback_used (validate_questions_with_llm questions contexts w).1.2 = true.
Proof.
  intros Hctx Hana Hreply Hjson Hobj.
  unfold validate_questions_with_llm.
  apply falsy_cons in Hctx. rewrite Hctx.
  destruct questions as [|q0 questions]; [done|]. simpl Py.falsy. simpl orb.
  apply falsy_cons in Hana. rewrite Hana.
  run_service. destruct (call_cortex_with_retry w) as [reply w'].
  simpl in Hreply. subst reply. simpl.
  destruct (_ || _); [done|]. rewrite Hjson.
  destruct result; try done. by destruct (Hobj members).
Qed.

End validator_more.

Lemma validate_questions_with_llm_nothing_to_check_witness :
  (validate_questions_with_llm (H := Scenario.library)
     [Scenario.ask "f1" "basic" "search"; Scenario.ask "f2" "basic" "search"]
     Scenario.sales Scenario.reject_all).1.1
  = [Scenario.ask "f1" "basic" "search"; Scenario.ask "f2" "basic" "search"]
  ∧ (validate_questions_with_llm (H := Scenario.library)
       [Scenario.ask "f1" "basic" "search"; Scenario.ask "f2" "basic" "search"]
       Scenario.sales Scenario.reject_all).2
    = Scenario.reject_all.
Proof.
  destruct (validate_questions_with_llm_nothing_to_check (H := Scenario.library)
              [Scenario.ask "f1" "basic" "search";
               Scenario.ask "f2" "basic" "search"]
              Scenario.sales Scenario.reject_all)
    as (Hout & _ & _ & Hworld).
  - right. right. repeat constructor.
  - split; [exact Hout|exact Hworld].
Defined.

Lemma verdict_without_key_rejects_all_witness :
  (validate_questions_with_llm (H := Cases.library_more) Scenario.two_and_two
     Scenario.sales Cases.empty_object).1.1
  = [Scenario.ask "f1" "basic" "search"; Scenario.ask "f2" "basic" "search"].
Proof.
  destruct (verdict_without_key_rejects_all (H := Cases.library_more)
              Scenario.two_and_two Scenario.sales Cases.empty_object "{}" [])
    as (Hout & _ & _).
  - done.
  - done.
  - reflexivity.
  - done.
  - reflexivity.
  - reflexivity.
  - rewrite Hout. reflexivity.
Defined.

Lemma verdict_not_an_object_accepts_all_witness :
  (validate_questions_with_llm (H := Cases.library_more) Scenario.two_and_two
     Scenario.sales Cases.bare_list).1.1
  = [Scenario.ask "q1" "basic" "analytics"; Scenario.ask "q2" "advanced" "analytics";
     Scenario.ask "f1" "basic" "search"; Scenario.ask "f2" "basic" "search"].
Proof.
  destruct (verdict_not_an_object_accepts_all (H := Cases.library_more)
              Scenario.two_and_two Scenario.sales Cases.bare_list "[1, 2]"
              (JArr [JInt 1; JInt 2]))
    as (Hout & _).
  - done.
  - done.
  - reflexivity.
  - reflexivity.
  - done.
  - rewrite Hout. reflexivity.
Defined.

(** ** The semantic tester *)

Lemma sublist_full {A} (l k : list A) :
  l `sublist_of` k → length k ≤ length l → l = k.
Proof.
  induction 1 as [|x l k _ IH|x l k Hsub _]; simpl; intros Hlen; [done| |].
  - f_equal. apply IH. lia.
  - apply sublist_length in Hsub. lia.
Qed.

(** What the loop adds to its two accumulators. *)
Lemma semantic_test_loop_spec questions answerable0 failed0 w :
  ∃ passed rejected,
    (semantic_test_loop questions answerable0 failed0 w).1
    = (answerable0 ++ passed, failed0 ++ rejected)
    ∧ passed `sublist_of` questions
    ∧ length passed + length rejected = length questions
    ∧ filter is_search passed = filter is_search questions
    ∧ map question rejected
      `sublist_of` map text (filter (λ q, ¬ is_search q) questions)
    ∧ length (analyst_replies w)
      ≤ length (analyst_replies (semantic_test_loop questions answerable0 failed0 w).2)
        + length (filter (λ q, ¬ is_search q) questions)
    ∧ validator_replies (semantic_test_loop questions answerable0 failed0 w).2
      = validator_replies w.
Proof.
  revert answerable0 failed0 w.
  induction questions as [|q questions IH]; intros answerable0 failed0 w.
  { exists [], []. simpl. rewrite !app_nil_r. repeat split; try done. lia. }
  simpl. destruct (decide (is_search q)) as [Hs|Hs].
  - destruct (IH (answerable0 ++ [q]) failed0 w)
      as (passed & rejected & Heq & Hsub & Hlen & Hsearch & Hrej & Hcalls & Hval).
    exists (q :: passed), rejected. rewrite Heq, <- app_assoc.
    rewrite filter_cons_True, filter_cons_True by done.
    rewrite (filter_cons_False (λ q, ¬ is_search q)) by (intros Hn; by apply Hn).
    repeat split; try done.
    + by constructor.
    + simpl. lia.
    + by rewrite Hsearch.
  - run_service.
    assert (Hpop : length (analyst_replies w)
                   ≤ S (length (analyst_replies (cortex_can_answer w).2))
                   ∧ validator_replies (cortex_can_answer w).2 = validator_replies w).
    { unfold cortex_can_answer. destruct (analyst_replies w); simpl; split; lia || done. }
    destruct (cortex_can_answer w) as [reply w1]. simpl in Hpop.
    destruct Hpop as [Hpop Hpopv].
    rewrite (filter_cons_False is_search) by done.
    rewrite (filter_cons_True (λ q, ¬ is_search q)) by done.
    assert (Hfail : ∀ why,
      ∃ passed rejected,
        (semantic_test_loop questions answerable0
           (failed0 ++ [mkFailed (text q) why]) w1).1
        = (answerable0 ++ passed, failed0 ++ rejected)
        ∧ passed `sublist_of` q :: questions
        ∧ length passed + length rejected = length (q :: questions)
        ∧ filter is_search passed = filter is_search questions
        ∧ map question rejected
          `sublist_of` map text (q :: filter (λ q, ¬ is_search q) questions)
        ∧ length (analyst_replies w)
          ≤ length (analyst_replies
                      (semantic_test_loop questions answerable0
                         (failed0 ++ [mkFailed (text q) why]) w1).2)
            + length (q :: filter (λ q, ¬ is_search q) questions)
        ∧ validator_replies
            (semantic_test_loop questions answerable0
               (failed0 ++ [mkFailed (text q) why]) w1).2
          = validator_replies w).
    { intros why.
      destruct (IH answerable0 (failed0 ++ [mkFailed (text q) why]) w1)
        as (passed & rejected & Heq & Hsub & Hlen & Hsearch & Hrej & Hcalls & Hval).
      exists passed, (mkFailed (text q) why :: rejected).
      rewrite Heq, <- app_assoc. repeat split; try done.
      - by constructor.
      - simpl. lia.
      - simpl. by constructor.
      - simpl. lia.
      - by rewrite Hval. }
    destruct reply as [| |can_answer]; [apply Hfail|apply Hfail|].
    destruct (Py.contains _ _); [|apply Hfail].
    destruct (IH (answerable0 ++ [q]) failed0 w1)
      as (passed & rejected & Heq & Hsub & Hlen & Hsearch & Hrej & Hcalls & Hval).
    exists (q :: passed), rejected. rewrite Heq, <- app_assoc.
    rewrite filter_cons_False by done.
    repeat split; try done.
    + by constructor.
    + simpl. lia.
    + simpl. by constructor.
    + simpl. lia.
    + by rewrite Hval.
Qed.

(** What the tester reports when a view name is given. *)
Lemma semantic_test_split questions info w :
  no_view info = false →
  answerable (test_questions_against_semantic_model questions info w).1
    `sublist_of` questions
  ∧ length (answerable (test_questions_against_semantic_model questions info w).1)
    + length (failed (test_questions_against_semantic_model questions info w).1)
    = length questions
  ∧ filter is_search
      (answerable (test_questions_against_semantic_model questions info w).1)
    = filter is_search questions
  ∧ map question (failed (test_questions_against_semantic_model questions info w).1)
    `sublist_of` map text (filter (λ q, ¬ is_search q) questions)
  ∧ length (analyst_replies w)
    ≤ length (analyst_replies
                (test_questions_against_semantic_model questions info w).2)
      + length (filter (λ q, ¬ is_search q) questions).
Proof.
  intros Hview. unfold test_questions_against_semantic_model. rewrite Hview.
  run_service.
  destruct (semantic_test_loop_spec questions [] [] w)
    as (passed & rejected & Heq & Hsub & Hlen & Hsearch & Hrej & Hcalls & _).
  destruct (semantic_test_loop questions [] [] w) as [[answerable0 failed0] w'].
  simpl in *. by injection Heq as -> ->.
Qed.

(** X7.  With a view name, the tester splits its input: the answerable
    questions are an order-preserving subsequence of the input that holds
    every search question, each other input question is either answerable or
    listed once in [failed] under its text, and at most one oracle query is
    made per non-search question. *)
Theorem test_questions_against_semantic_model_partition questions info w :
  no_view info = false →
  answerable (test_questions_against_semantic_model questions info w).1
    `sublist_of` questions
  ∧ length (answerable (test_questions_against_semantic_model questions info w).1)
    + length (failed (test_questions_against_semantic_model questions info w).1)
    = length questions
  ∧ filter is_search
      (answerable (test_questions_against_semantic_model questions info w).1)
    = filter is_search questions
  ∧ map question (failed (test_questions_against_semantic_model questions info w).1)
    `sublist_of` map text (filter (λ q, ¬ is_search q) questions)
  ∧ length (analyst_replies w)
    ≤ length (analyst_replies
                (test_questions_against_semantic_model questions info w).2)
      + length (filter (λ q, ¬ is_search q) questions).
Proof. exact (semantic_test_split questions info w). Qed.

(** The tester never reports more than it was given, and reports all of it
    when nothing failed. *)
Lemma answerable_when_none_failed questions info w :
  failed (test_questions_against_semantic_model questions info w).1 = [] →
  answerable (test_questions_against_semantic_model questions info w).1 = questions.
Proof.
  destruct (no_view info) eqn:Hview.
  { by rewrite test_questions_against_semantic_model_skips. }
  destruct (semantic_test_split questions info w Hview)
    as (Hsub & Hlen & _).
  intros Hnone. rewrite Hnone in Hlen. simpl in Hlen.
  apply sublist_full; [done|lia].
Qed.

Lemma answerable_sublist questions info w :
  answerable (test_questions_against_semantic_model questions info w).1
    `sublist_of` questions.
Proof.
  destruct (no_view info) eqn:Hview.
  { by rewrite test_questions_against_semantic_model_skips. }
  by destruct (semantic_test_split questions info w Hview).
Qed.

(** X8.  The semantic gate of the run keeps exactly the questions the tester
    reports answerable, in their order, and nothing when no semantic model
    description is given. *)
Theorem semantic_gate_keeps_answerable req validated_questions w :
  (semantic_gate req validated_questions w).1
  = (if model_given (semantic_model_info req)
     then answerable (test_questions_against_semantic_model
                        validated_questions (semantic_model_info req) w).1
     else [])
  ∧ (semantic_gate req validated_questions w).1 `sublist_of` validated_questions.
Proof.
  assert (Heq : (semantic_gate req validated_questions w).1
                = (if model_given (semantic_model_info req)
                   then answerable (test_questions_against_semantic_model
                                      validated_questions (semantic_model_info req) w).1
                   else [])).
  { unfold semantic_gate. destruct (model_given _); [|done]. run_service.
    pose proof (answerable_when_none_failed validated_questions
                  (semantic_model_info req) w) as Hnone.
    destruct (test_questions_against_semantic_model _ _ w) as [results w'].
    simpl in *. destruct (Py.falsy (failed results)) eqn:Hfailed; [|done].
    apply falsy_nil in Hfailed. by rewrite Hnone. }
  split; [done|]. rewrite Heq. destruct (model_given _).
  - apply answerable_sublist.
  - apply sublist_nil_l.
Qed.

Lemma test_questions_against_semantic_model_partition_witness :
  length (answerable (test_questions_against_semantic_model Scenario.two_and_two
                        Scenario.deployed_view Cases.yes_then_no).1)
  + length (failed (test_questions_against_semantic_model Scenario.two_and_two
                      Scenario.deployed_view Cases.yes_then_no).1)
  = 4.
Proof.
  destruct (test_questions_against_semantic_model_partition Scenario.two_and_two
              Scenario.deployed_view Cases.yes_then_no)
    as (_ & Hlen & _).
  - reflexivity.
  - exact Hlen.
Defined.

(** ** Slices *)

Section slices.
Context {A : Type}.
Implicit Types (l : list A) (k : Z).

Lemma slice_split k l : Py.slice_to k l ++ Py.slice_from k l = l.
Proof. unfold Py.slice_to, Py.slice_from. destruct (decide _); apply take_drop. Qed.

Lemma slice_length k l :
  length (Py.slice_to k l) + length (Py.slice_from k l) = length l.
Proof. by rewrite <- length_app, slice_split. Qed.

Lemma slice_to_sublist k l : Py.slice_to k l `sublist_of` l.
Proof. unfold Py.slice_to. destruct (decide _); apply sublist_take. Qed.

Lemma slice_from_sublist k l : Py.slice_from k l `sublist_of` l.
Proof. unfold Py.slice_from. destruct (decide _); apply sublist_drop. Qed.

Lemma Forall_sublist (P : A → Prop) l1 l2 :
  l1 `sublist_of` l2 → Forall P l2 → Forall P l1.
Proof.
  induction 1 as [|x l1 l2 _ IH|x l1 l2 _ IH]; [done| |].
  - intros [Hx Hl]%Forall_cons. constructor; auto.
  - intros [_ Hl]%Forall_cons. auto.
Qed.

Lemma Forall_slice_to (P : A → Prop) k l : Forall P l → Forall P (Py.slice_to k l).
Proof. intros. eapply Forall_sublist; [apply slice_to_sublist|done]. Qed.

Lemma Forall_slice_from (P : A → Prop) k l :
  Forall P l → Forall P (Py.slice_from k l).
Proof. intros. eapply Forall_sublist; [apply slice_from_sublist|done]. Qed.
End slices.

(** ** The selector, continued *)

(** The three difficulty groups count every question of known difficulty
    once. *)
Lemma difficulty_groups_length pool :
  Forall known_difficulty pool →
  length (filter (has_difficulty "advanced") pool)
  + length (filter (has_difficulty "intermediate") pool)
  + length (filter (has_difficulty "basic") pool)
  = length pool.
Proof.
  induction 1 as [|q pool Hq _ IH]; [done|].
  rewrite !filter_cons. unfold has_difficulty, known_difficulty in *.
  repeat destruct (decide _); simpl; try lia;
    destruct Hq as [Hq|[Hq|Hq]]; congruence.
Qed.

Lemma difficulty_groups_submseteq pool :
  filter (has_difficulty "advanced") pool
  ++ filter (has_difficulty "intermediate") pool
  ++ filter (has_difficulty "basic") pool
  ⊆+ pool.
Proof.
  induction pool as [|q pool IH]; [done|].
  rewrite !filter_cons. unfold has_difficulty in *.
  destruct (decide (difficulty q = Some "advanced")) as [Ha|Ha];
    destruct (decide (difficulty q = Some "intermediate")) as [Hi|Hi];
    destruct (decide (difficulty q = Some "basic")) as [Hb|Hb];
    try congruence.
  - simpl. by constructor.
  - rewrite <- app_comm_cons, <- Permutation_middle. by constructor.
  - rewrite app_assoc, <- Permutation_middle, <- app_assoc. by constructor.
  - by apply submseteq_cons.
Qed.

(** The filling of the free slots, over any split of the candidates: once
    the selected questions and the rest add up to the target, the cut at the
    target has exactly that size. *)
Lemma fill_to_target {A} (selected advanced intermediate basic : list A)
    (target_count : nat) (ka ki kb : Z) :
  target_count
  ≤ length selected + length advanced + length intermediate + length basic →
  length
    (Py.slice_to (Z.of_nat target_count)
       (if decide
             (Py.len (((selected ++ Py.slice_to ka advanced)
                       ++ Py.slice_to ki intermediate)
                      ++ Py.slice_to kb basic)
              < Z.of_nat target_count)%Z
        then (((selected ++ Py.slice_to ka advanced)
               ++ Py.slice_to ki intermediate)
              ++ Py.slice_to kb basic)
             ++ Py.slice_to
                  (Z.of_nat target_count
                   - Py.len (((selected ++ Py.slice_to ka advanced)
                              ++ Py.slice_to ki intermediate)
                             ++ Py.slice_to kb basic))
                  (Py.slice_from ka advanced
                   ++ Py.slice_from ki intermediate
                   ++ Py.slice_from kb basic)
        else ((selected ++ Py.slice_to ka advanced)
              ++ Py.slice_to ki intermediate)
             ++ Py.slice_to kb basic))
  = target_count.
Proof.
  intros Hroom.
  pose proof (slice_length ka advanced) as Ha.
  pose proof (slice_length ki intermediate) as Hi.
  pose proof (slice_length kb basic) as Hb.
  set (picked := ((selected ++ Py.slice_to ka advanced)
                  ++ Py.slice_to ki intermediate) ++ Py.slice_to kb basic).
  assert (Hpicked : length picked
                    = length selected + length (Py.slice_to ka advanced)
                      + length (Py.slice_to ki intermediate)
                      + length (Py.slice_to kb basic)).
  { unfold picked. rewrite !length_app. lia. }
  rewrite slice_to_nonneg, length_take.
  destruct (decide _) as [Hshort|Hfull]; unfold Py.len in *.
  - replace (Z.of_nat target_count - Z.of_nat (length picked))%Z
      with (Z.of_nat (target_count - length picked)) by lia.
    rewrite slice_to_nonneg, length_app, length_take, !length_app. lia.
  - lia.
Qed.

Lemma fill_submseteq {A} (selected advanced intermediate basic : list A)
    (target_count : nat) (ka ki kb : Z) :
  Py.slice_to (Z.of_nat target_count)
    (if decide
          (Py.len (((selected ++ Py.slice_to ka advanced)
                    ++ Py.slice_to ki intermediate)
                   ++ Py.slice_to kb basic)
           < Z.of_nat target_count)%Z
     then (((selected ++ Py.slice_to ka advanced)
            ++ Py.slice_to ki intermediate)
           ++ Py.slice_to kb basic)
          ++ Py.slice_to
               (Z.of_nat target_count
                - Py.len (((selected ++ Py.slice_to ka advanced)
                           ++ Py.slice_to ki intermediate)
                          ++ Py.slice_to kb basic))
               (Py.slice_from ka advanced
                ++ Py.slice_from ki intermediate
                ++ Py.slice_from kb basic)
     else ((selected ++ Py.slice_to ka advanced)
           ++ Py.slice_to ki intermediate)
          ++ Py.slice_to kb basic)
  ⊆+ selected ++ advanced ++ intermediate ++ basic.
Proof.
  set (a1 := Py.slice_to ka advanced). set (a2 := Py.slice_from ka advanced).
  set (i1 := Py.slice_to ki intermediate).
  set (i2 := Py.slice_from ki intermediate).
  set (b1 := Py.slice_to kb basic). set (b2 := Py.slice_from kb basic).
  transitivity ((((selected ++ a1) ++ i1) ++ b1) ++ a2 ++ i2 ++ b2).
  - etransitivity; [apply sublist_submseteq, slice_to_sublist|].
    destruct (decide _).
    + apply submseteq_app; [done|]. apply sublist_submseteq, slice_to_sublist.
    + apply submseteq_inserts_r. done.
  - apply Permutation_submseteq.
    rewrite <- (slice_split ka advanced), <- (slice_split ki intermediate),
      <- (slice_split kb basic).
    fold a1 a2 i1 i2 b1 b2. rewrite <- !app_assoc.
    apply Permutation_app_head, Permutation_app_head.
    rewrite (Permutation_app_swap_app b1 a2).
    rewrite (Permutation_app_swap_app i1 a2).
    apply Permutation_app_head, Permutation_app_head.
    apply Permutation_app_swap_app.
Qed.

(** X9.  When the pool is larger than the target and every question has one
    of the three known difficulties, [select_best_questions] returns exactly
    [target_count] questions. *)
Theorem select_best_questions_fills_target pool target_count min_advanced :
  target_count < length pool →
  Forall known_difficulty pool →
  length (select_best_questions pool target_count min_advanced) = target_count.
Proof.
  intros Hpool Hknown. unfold select_best_questions.
  destruct (decide (length pool ≤ target_count)); [lia|].
  pose proof (difficulty_groups_length pool Hknown) as Hgroups.
  cbv zeta.
  match goal with
  | |- context [decide (Py.len (Py.slice_to ?m ?a) < ?m)%Z] =>
      pose proof (slice_length m a) as Hadv;
      destruct (decide (Py.len (Py.slice_to m a) < m)%Z)
  end; cbv beta iota zeta.
  - match goal with
    | |- context [Py.slice_from ?k (filter (has_difficulty "intermediate") pool)] =>
        pose proof (slice_length k (filter (has_difficulty "intermediate") pool))
          as Hint
    end.
    apply fill_to_target. rewrite length_app. lia.
  - apply fill_to_target. lia.
Qed.

(** X10.  [select_best_questions] only returns questions of the pool, and
    when it has to cut the pool it returns no question whose difficulty is
    missing or unknown. *)
Theorem select_best_questions_from_pool pool target_count min_advanced :
  select_best_questions pool target_count min_advanced ⊆ pool
  ∧ (target_count < length pool →
     Forall known_difficulty
            (select_best_questions pool target_count min_advanced)).
Proof.
  assert (Hgroup : ∀ d, d = "basic" ∨ d = "intermediate" ∨ d = "advanced" →
            Forall (λ q, q ∈ pool ∧ known_difficulty q)
                   (filter (has_difficulty d) pool)).
  { intros d Hd. apply Forall_forall. intros q [Hq Hin]%list_elem_of_filter.
    split; [done|]. unfold known_difficulty.
    destruct Hd as [->|[->| ->]]; auto. }
  assert (Hall : target_count < length pool →
            Forall (λ q, q ∈ pool ∧ known_difficulty q)
                   (select_best_questions pool target_count min_advanced)).
  { intros Hpool. unfold select_best_questions.
    destruct (decide (length pool ≤ target_count)); [lia|].
    cbv zeta.
    match goal with
    | |- context [decide (Py.len (Py.slice_to ?m ?a) < ?m)%Z] =>
        destruct (decide (Py.len (Py.slice_to m a) < m)%Z)
    end; cbv beta iota zeta;
      apply Forall_slice_to; destruct (decide _);
      repeat first [apply Forall_app_2 | apply Forall_slice_to
                   | apply Forall_slice_from];
      apply Hgroup; auto. }
  split.
  - destruct (decide (target_count < length pool)) as [Hpool|Hpool].
    + intros q Hq. pose proof (Hall Hpool) as Hsel.
      rewrite Forall_forall in Hsel. by destruct (Hsel q Hq).
    + unfold select_best_questions. rewrite decide_True by lia. done.
  - intros Hpool. eapply Forall_impl; [exact (Hall Hpool)|]. by intros q [_ ?].
Qed.

(** X11.  When the pool holds at least [min_advanced] advanced questions,
    the selection takes no question more often than the pool holds it; in
    particular a pool without repetition gives a selection without
    repetition. *)
Theorem select_best_questions_no_repetition pool target_count min_advanced :
  min_advanced ≤ length (filter (has_difficulty "advanced") pool) →
  select_best_questions pool target_count min_advanced ⊆+ pool
  ∧ (NoDup pool →
     NoDup (select_best_questions pool target_count min_advanced)).
Proof.
  intros Hadv.
  assert (Hsub : select_best_questions pool target_count min_advanced ⊆+ pool).
  { unfold select_best_questions.
    destruct (decide (length pool ≤ target_count)); [done|].
    cbv zeta. rewrite !(slice_to_nonneg min_advanced).
    match goal with
    | |- context [decide (Py.len ?s < ?m)%Z] =>
        destruct (decide (Py.len s < m)%Z) as [Hlt|_]
    end.
    { unfold Py.len in Hlt. rewrite length_take in Hlt. lia. }
    cbv beta iota zeta.
    etransitivity; [apply fill_submseteq|].
    etransitivity; [|apply difficulty_groups_submseteq].
    rewrite app_assoc.
    rewrite <- (slice_to_nonneg min_advanced), slice_split. done. }
  split; [done|]. intros Hnodup.
  apply submseteq_Permutation in Hsub as [rest Hperm].
  rewrite Hperm in Hnodup. by apply NoDup_app in Hnodup as [? _].
Qed.

Lemma select_best_questions_fills_target_witness :
  length (select_best_questions Scenario.one_advanced_pool 4 1) = 4.
Proof.
  apply (select_best_questions_fills_target Scenario.one_advanced_pool 4 1).
  - simpl. lia.
  - compute_done.
Defined.

Lemma select_best_questions_from_pool_witness :
  Forall known_difficulty (select_best_questions Scenario.one_advanced_pool 4 1).
Proof.
  apply (select_best_questions_from_pool Scenario.one_advanced_pool 4 1).
  simpl. lia.
Defined.

Lemma select_best_questions_no_repetition_witness :
  NoDup (select_best_questions Scenario.one_advanced_pool 4 1).
Proof.
  apply (select_best_questions_no_repetition Scenario.one_advanced_pool 4 1).
  - vm_compute. lia.
  - compute_done.
Defined.

(** ** The final selection and the target merge *)

Section selection_more.
Context `{Library}.

(** X12.  The final selection only returns questions of the pool it is
    given, and when it has to cut the pool it returns no question whose
    category is neither analytics nor search. *)
Theorem final_selection_from_pool num_questions validated_questions :
  final_selection num_questions validated_questions ⊆ validated_questions
  ∧ (num_questions < length validated_questions →
     Forall (λ q, is_analytics q ∨ is_search q)
            (final_selection num_questions validated_questions)).
Proof.
  set (P := λ q, q ∈ validated_questions ∧ (is_analytics q ∨ is_search q)).
  assert (Hana : Forall P (filter is_analytics validated_questions)).
  { apply Forall_forall. intros q [Hq Hin]%list_elem_of_filter. split; auto. }
  assert (Hsea : Forall P (filter is_search validated_questions)).
  { apply Forall_forall. intros q [Hq Hin]%list_elem_of_filter. split; auto. }
  assert (Hall : num_questions < length validated_questions →
            Forall P (final_selection num_questions validated_questions)).
  { intros Hcut. unfold final_selection. rewrite decide_True by done.
    cbv zeta.
    repeat match goal with
           | |- context [decide ?c] => destruct (decide c)
           end;
      repeat first [exact Hana | exact Hsea | apply Forall_app_2
                   | apply Forall_slice_to
                   | (eapply Forall_sublist; [apply sublist_filter|])]. }
  split.
  - destruct (decide (num_questions < length validated_questions)) as [Hcut|Hcut].
    + intros q Hq. pose proof (Hall Hcut) as Hsel.
      rewrite Forall_forall in Hsel. by destruct (Hsel q Hq).
    + unfold final_selection. by rewrite decide_False.
  - intros Hcut. eapply Forall_impl; [exact (Hall Hcut)|]. by intros q [_ ?].
Qed.

(** X13.  When the pool has to be cut and holds more analytics questions
    than their share [int(num_questions * 0.7)], the final selection starts
    with the first three advanced analytics questions of the pool (with all
    of them when there are fewer). *)
Theorem final_selection_advanced_first num_questions validated_questions :
  num_questions < length validated_questions →
  (int_mul_0_7 (Z.of_nat num_questions)
   < Py.len (filter is_analytics validated_questions))%Z →
  take 3 (filter (has_difficulty "advanced")
                 (filter is_analytics validated_questions))
    `prefix_of` final_selection num_questions validated_questions.
Proof.
  intros Hcut Hshare. unfold final_selection. rewrite decide_True by done.
  cbv zeta. rewrite (decide_True _ _ Hshare).
  set (advanced_analytics :=
         filter (has_difficulty "advanced")
                (filter is_analytics validated_questions)).
  assert (Hhead : Py.slice_to (Z.min 3 (Py.len advanced_analytics)) advanced_analytics
                  = take 3 advanced_analytics).
  { unfold Py.slice_to, Py.len. rewrite decide_True by lia.
    replace (Z.to_nat (Z.min 3 (Z.of_nat (length advanced_analytics))))
      with (3 `min` length advanced_analytics) by lia.
    by rewrite <- take_take, firstn_all. }
  rewrite !Hhead.
  repeat match goal with
         | |- context [decide ?c] => destruct (decide c)
         end;
    rewrite <- ?app_assoc; by apply prefix_app_r.
Qed.

End selection_more.

(** The shape of the merged list. *)
Lemma include_targets_shape validated_targets validated_questions num_questions :
  length (include_targets validated_targets validated_questions num_questions)
  ≤ num_questions
  ∧ take (length validated_targets)
         (include_targets validated_targets validated_questions num_questions)
    = take num_questions validated_targets
  ∧ include_targets validated_targets validated_questions num_questions
    ⊆ validated_targets ++ validated_questions.
Proof.
  unfold include_targets. destruct (Py.falsy validated_targets) eqn:Hnone.
  - apply falsy_nil in Hnone as ->. simpl. rewrite take_nil.
    repeat split; [apply firstn_le_length|].
    intros q Hq. eapply elem_of_sublist; [exact Hq|apply sublist_take].
  - repeat split.
    + apply firstn_le_length.
    + rewrite take_take.
      destruct (decide (length validated_targets ≤ num_questions)).
      * rewrite Nat.min_l, take_app_length, take_ge by done. done.
      * rewrite Nat.min_r, take_app_le by lia. done.
    + intros q Hq.
      eapply elem_of_sublist in Hq; [|apply sublist_take].
      apply elem_of_app in Hq as [?|Hq]; apply elem_of_app; [by left|right].
      by apply list_elem_of_filter in Hq as [_ ?].
Qed.

(** X14.  The merge with the target questions returns at most
    [num_questions] questions, all of them target or generated questions,
    and puts the target questions first: its first entries are the target
    questions, as many as fit. *)
Theorem include_targets_first validated_targets validated_questions num_questions :
  length (include_targets validated_targets validated_questions num_questions)
  ≤ num_questions
  ∧ take (length validated_targets)
         (include_targets validated_targets validated_questions num_questions)
    = take num_questions validated_targets
  ∧ include_targets validated_targets validated_questions num_questions
    ⊆ validated_targets ++ validated_questions.
Proof.
  exact (include_targets_shape validated_targets validated_questions
           num_questions).
Qed.

Lemma final_selection_from_pool_witness :
  Forall (λ q, is_analytics q ∨ is_search q)
         (final_selection (H := Scenario.library) 2 Scenario.two_and_two).
Proof.
  apply (final_selection_from_pool (H := Scenario.library) 2 Scenario.two_and_two).
  simpl. lia.
Defined.

Lemma final_selection_advanced_first_witness :
  [Scenario.ask "q2" "advanced" "analytics"]
    `prefix_of` final_selection (H := Scenario.library) 2 Scenario.two_and_two.
Proof.
  apply (final_selection_advanced_first (H := Scenario.library) 2
           Scenario.two_and_two).
  - simpl. lia.
  - vm_compute. reflexivity.
Defined.

(** ** Candidate generation *)

Section generation_more.
Context `{Library}.

Lemma generate_questions_with_llm_worlds contexts w :
  validator_replies (generate_questions_with_llm contexts w).2 = validator_replies w
  ∧ analyst_replies (generate_questions_with_llm contexts w).2 = analyst_replies w
  ∧ generator_replies (generate_questions_with_llm contexts w).2
    = tail (generator_replies w).
Proof.
  unfold generate_questions_with_llm, cortex_complete_questions. run_service.
  destruct (generator_replies w) eqn:Hg; simpl; rewrite ?Hg; done.
Qed.

(** X15.  With a schema context every question [generate_questions_with_llm]
    returns carries the source tag [ai], and every column it declares is,
    once upper-cased by [str.upper], the non-empty upper-cased name of a
    column of the schema; a failed generation (the request raises or the
    response holds no array) gives the empty list. *)
Theorem generate_questions_with_llm_verified contexts w :
  contexts ≠ [] →
  Forall (λ q, source q = Some "ai"
               ∧ declared_columns (names_column contexts) q)
         (generate_questions_with_llm contexts w).1
  ∧ (generation_fails (cortex_complete_questions w).1 →
     (generate_questions_with_llm contexts w).1 = []).
Proof.
  intros Hctx. unfold generate_questions_with_llm. run_service.
  destruct (cortex_complete_questions w) as [[| |questions_data] w']; simpl;
    [done|done|].
  split; [|done].
  unfold verify_column_references. apply falsy_cons in Hctx. rewrite Hctx. simpl.
  destruct (Py.falsy (map set_source_ai questions_data)) eqn:Hempty.
  { apply falsy_nil in Hempty. by rewrite Hempty. }
  apply Forall_forall. intros q [Hq Hin]%list_elem_of_filter. split.
  - apply list_elem_of_fmap in Hin as (q0 & -> & _). done.
  - by apply columns_verified_spec.
Qed.

End generation_more.

(** ** The accumulation retry *)

Section accumulate_more.
Context `{Library}.

(** The sizes the accumulation step leaves behind. *)
Lemma validate_and_accumulate_sizes req questions w :
  let first_valid :=
    (validate_questions_with_llm questions (rich_table_contexts req) w).1.1 in
  let pool := (validate_and_accumulate req questions w).1.1 in
  let validation_debug := (validate_and_accumulate req questions w).1.2 in
  retry_triggered validation_debug
  = bool_decide (length first_valid < num_questions req)
  ∧ (if retry_triggered validation_debug
     then is_Some (attempt_2 validation_debug)
          ∧ length pool ≤ num_questions req
          ∧ after_selection validation_debug = length pool
     else attempt_2 validation_debug = None
          ∧ pool = first_valid
          ∧ num_questions req ≤ length pool)
  ∧ final_question_count validation_debug = length pool
  ∧ attempt_1_valid validation_debug = map text first_valid.
Proof.
  unfold validate_and_accumulate. run_service.
  destruct (validate_questions_with_llm questions _ w)
    as [[validated_questions debug_info_1] w1].
  simpl. destruct (decide (length validated_questions < num_questions req));
    run_service.
  - destruct (generate_questions_with_llm _ w1) as [new_questions w2].
    destruct (validate_questions_with_llm new_questions _ w2)
      as [[validated_new debug_info_2] w3].
    simpl. rewrite bool_decide_eq_true_2 by done.
    repeat split; try done. apply select_best_questions_bound.
  - rewrite bool_decide_eq_false_2 by done. repeat split; try done. lia.
Qed.

(** X16.  The accumulation retry runs exactly when the first validation
    returned fewer questions than asked for.  When it runs, the pool that
    comes back holds at most [num_questions] questions; when it does not,
    the pool is the first validation's result and holds at least
    [num_questions].  [final_question_count] is the size of that pool. *)
Theorem validate_and_accumulate_retry req questions w :
  let first_valid :=
    (validate_questions_with_llm questions (rich_table_contexts req) w).1.1 in
  let pool := (validate_and_accumulate req questions w).1.1 in
  let validation_debug := (validate_and_accumulate req questions w).1.2 in
  retry_triggered validation_debug
  = bool_decide (length first_valid < num_questions req)
  ∧ (if retry_triggered validation_debug
     then is_Some (attempt_2 validation_debug)
          ∧ length pool ≤ num_questions req
          ∧ after_selection validation_debug = length pool
     else attempt_2 validation_debug = None
          ∧ pool = first_valid
          ∧ num_questions req ≤ length pool)
  ∧ final_question_count validation_debug = length pool
  ∧ attempt_1_valid validation_debug = map text first_valid.
Proof. exact (validate_and_accumulate_sizes req questions w). Qed.

(** X17.  The reported pass rate is the size of the returned pool over the
    number of questions asked for, unless the last attempt fell back: it is at
    most 1 when the accumulation retry ran and at least 1 when it did not, so
    it is no share of the questions generated. *)
Theorem final_pass_rate_range req questions w :
  let validation_debug := (validate_and_accumulate req questions w).1.2 in
  0 < num_questions req →
  used_fallback validation_debug = false →
  final_pass_rate validation_debug
  = pass_ratio (final_question_count validation_debug) (num_questions req)
  ∧ (if retry_triggered validation_debug
     then (final_pass_rate validation_debug <= 1)%Q
     else (1 <= final_pass_rate validation_debug)%Q).
Proof.
  intros validation_debug Hpos.
  destruct (validate_and_accumulate_sizes req questions w)
    as (_ & Hsize & Hcount & _).
  fold validation_debug in Hsize, Hcount.
  assert (Hrate : used_fallback validation_debug = false →
            final_pass_rate validation_debug
            = pass_ratio (final_question_count validation_debug)
                         (num_questions req)).
  { subst validation_debug. unfold validate_and_accumulate. run_service.
    destruct (validate_questions_with_llm questions _ w)
      as [[validated_questions debug_info_1] w1].
    destruct (decide (length validated_questions < num_questions req));
      run_service.
    - destruct (generate_questions_with_llm _ w1) as [new_questions w2].
      destruct (validate_questions_with_llm new_questions _ w2)
        as [[validated_new debug_info_2] w3].
      simpl. by intros ->.
    - by intros ->. }
  intros Hfb. specialize (Hrate Hfb). split; [done|].
  rewrite Hrate, Hcount. unfold pass_ratio. rewrite decide_True by done.
  assert (Hden : Z.pos (Pos.of_nat (num_questions req))
                 = Z.of_nat (num_questions req)).
  { rewrite <- positive_nat_Z, Nat2Pos.id by lia. done. }
  destruct (retry_triggered validation_debug).
  - destruct Hsize as (_ & Hle & _). unfold Qle. simpl. rewrite Hden. lia.
  - destruct Hsize as (_ & _ & Hge). unfold Qle. simpl. rewrite Hden. lia.
Qed.

End accumulate_more.

Lemma generate_questions_with_llm_verified_witness :
  Forall (λ q, source q = Some "ai"
               ∧ declared_columns
                   (names_column (H := Scenario.library) Scenario.sales) q)
         (generate_questions_with_llm (H := Scenario.library) Scenario.sales
            Cases.two_generated).1
  ∧ (generate_questions_with_llm (H := Scenario.library) Scenario.sales
       Cases.no_generation).1 = [].
Proof.
  split.
  - refine (proj1 (generate_questions_with_llm_verified (H := Scenario.library)
                     Scenario.sales Cases.two_generated _)).
    done.
  - refine (proj2 (generate_questions_with_llm_verified (H := Scenario.library)
                     Scenario.sales Cases.no_generation _) _).
    + done.
    + exact I.
Defined.

Lemma final_pass_rate_range_witness :
  (1 <= final_pass_rate
          (validate_and_accumulate (H := Scenario.library) Scenario.two_questions
             Scenario.two_analytics Cases.accepts_both).1.2)%Q.
Proof.
  refine (proj2 (final_pass_rate_range (H := Scenario.library)
                   Scenario.two_questions Scenario.two_analytics
                   Cases.accepts_both _ _)).
  - simpl. lia.
  - reflexivity.
Defined.

(** ** The retry loop and the targeted generation, continued *)

Section rounds_more.
Context `{Library}.

(** X18.  With at least two analytics and two search questions accumulated
    the retry loop runs no round: it returns the pool as it is and calls no
    service. *)
Theorem retry_loop_not_needed req accumulated w :
  2 ≤ analytics_count accumulated →
  2 ≤ search_count accumulated →
  retry_loop req 0 accumulated w = ((0, accumulated), w).
Proof.
  intros Hana Hsea. simp retry_loop. unfold MAX_RETRIES. simpl.
  unfold needs_more_analytics, needs_more_search.
  rewrite !bool_decide_eq_false_2 by lia. done.
Qed.

(** X19.  When every generation request of the loop fails (the call raises
    or the response holds no array), the loop gives back the pool it started
    from, after three rounds if a category is short, and calls neither the
    validator nor the semantic tester. *)
Theorem retry_loop_all_rounds_fail req retry_attempt accumulated w :
  retry_attempt ≤ MAX_RETRIES →
  Forall generation_fails (generator_replies w) →
  (retry_loop req retry_attempt accumulated w).1
  = (if needs_more_analytics accumulated || needs_more_search accumulated
     then MAX_RETRIES else retry_attempt,
     accumulated)
  ∧ validator_replies (retry_loop req retry_attempt accumulated w).2
    = validator_replies w
  ∧ analyst_replies (retry_loop req retry_attempt accumulated w).2
    = analyst_replies w.
Proof.
  remember (MAX_RETRIES - retry_attempt) as budget eqn:Hbudget.
  revert retry_attempt w Hbudget.
  induction budget as [|budget IH]; intros retry_attempt w Hbudget Hle Hfail;
    simp retry_loop.
  - destruct (decide (retry_attempt < MAX_RETRIES)); [lia|]. simpl.
    assert (retry_attempt = MAX_RETRIES) as -> by lia.
    by destruct (_ || _).
  - destruct (decide (retry_attempt < MAX_RETRIES)) as [Hlt|]; [|lia]. simpl.
    destruct (needs_more_analytics accumulated || needs_more_search accumulated)
      eqn:Hneeds; simpl; [|done].
    assert (Hround : retry_round req (S retry_attempt) accumulated w
                     = ((RoundContinue, accumulated),
                        (cortex_complete_questions w).2)).
    { unfold retry_round.
      destruct (decide _) as [Hzero|_].
      { exfalso. unfold needs_more_analytics, needs_more_search in *.
        repeat case_bool_decide; simpl in *; try lia; done. }
      run_service. unfold cortex_complete_questions.
      destruct (generator_replies w) as [|g rest]; [done|].
      apply Forall_cons in Hfail as [Hg _]. by destruct g. }
    rewrite Hround. simpl.
    assert (Hnext : Forall generation_fails
                      (generator_replies (cortex_complete_questions w).2)
                    ∧ validator_replies (cortex_complete_questions w).2
                      = validator_replies w
                    ∧ analyst_replies (cortex_complete_questions w).2
                      = analyst_replies w).
    { unfold cortex_complete_questions.
      destruct (generator_replies w) as [|g rest] eqn:Hg; simpl.
      - by rewrite Hg.
      - by apply Forall_cons in Hfail as [_ ?]. }
    destruct Hnext as (Hfail' & Hval & Hanalyst).
    destruct (IH (S retry_attempt) (cortex_complete_questions w).2)
      as (Hres & Hv & Ha); [lia|lia|done|].
    rewrite Hres, Hv, Ha, ?Hneeds, Hval, Hanalyst. done.
Qed.

(** X20.  The targeted generation never discards a question: the pool it
    returns starts with the pool it was given.  With at least three advanced
    analytics questions and three search questions it returns that pool and
    sends no request. *)
Theorem targeted_generation_extends req validated_questions w :
  validated_questions `prefix_of` (targeted_generation req validated_questions w).1
  ∧ (if bool_decide (3 ≤ advanced_analytics_count validated_questions
                     ∧ 3 ≤ search_count validated_questions)
     then targeted_generation req validated_questions w = (validated_questions, w)
     else True).
Proof.
  unfold targeted_generation.
  destruct (bool_decide (advanced_analytics_count validated_questions < 3))
    eqn:Hadv;
    destruct (bool_decide (search_count validated_questions < 3)) eqn:Hsea;
    try apply bool_decide_eq_true in Hadv;
    try apply bool_decide_eq_true in Hsea;
    try apply bool_decide_eq_false in Hadv;
    try apply bool_decide_eq_false in Hsea; simpl.
  4: { rewrite bool_decide_eq_true_2 by lia. done. }
  all: rewrite bool_decide_eq_false_2 by lia; split; [|done]; run_service;
    destruct (cortex_complete_questions w) as [[| |questions_data] w1];
    try done;
    destruct (validate_questions_with_llm _ _ w1) as [[validated_targeted ?] w2];
    simpl; by apply prefix_app_r.
Qed.

End rounds_more.

Lemma retry_loop_not_needed_witness :
  retry_loop (H := Scenario.library) Scenario.two_questions 0
    Scenario.two_and_two Scenario.silent
  = ((0, Scenario.two_and_two), Scenario.silent).
Proof.
  apply (retry_loop_not_needed (H := Scenario.library) Scenario.two_questions
           Scenario.two_and_two Scenario.silent).
  - vm_compute. lia.
  - vm_compute. lia.
Defined.

Lemma retry_loop_all_rounds_fail_witness :
  (retry_loop (H := Scenario.library) Scenario.two_questions 0
     Scenario.two_analytics Cases.no_generation).1
  = (3, Scenario.two_analytics).
Proof.
  refine (proj1 (retry_loop_all_rounds_fail (H := Scenario.library)
                   Scenario.two_questions 0 Scenario.two_analytics
                   Cases.no_generation _ _)).
  - unfold MAX_RETRIES. lia.
  - repeat constructor.
Defined.

(** ** The run, continued *)

Section run_more.
Context `{Library}.

(** X21.  A run never returns more than [num_questions] questions. *)
Theorem generate_contextual_questions_at_most req w result :
  (generate_contextual_questions req w).1 = Returns result →
  length (final_questions result) ≤ num_questions req.
Proof.
  unfold generate_contextual_questions. run_service.
  destruct (validate_targets req w) as [[[validated_targets target_debug]|] w1];
    [|done].
  destruct (generate_questions_with_llm _ w1) as [questions w2].
  destruct (negb _ && negb _).
  - destruct (validate_and_accumulate req questions w2) as [[? ?] w3].
    destruct (semantic_gate req _ w3) as [tested w4].
    destruct (retry_loop req 0 tested w4) as [[rounds accumulated] w5].
    destruct (targeted_generation req accumulated w5) as [validated w6].
    simpl. intros [= <-]. simpl. apply include_targets_shape.
  - simpl. intros [= <-]. simpl. apply firstn_le_length.
Qed.

(** X22.  When the first generation yields at least one question, the list
    a run returns starts with the validated target questions, as many as
    fit in [num_questions]. *)
Theorem validated_targets_come_first
    req w validated_targets target_debug w1 result :
  validate_targets req w = (Returns (validated_targets, target_debug), w1) →
  rich_table_contexts req ≠ [] →
  (generate_questions_with_llm (rich_table_contexts req) w1).1 ≠ [] →
  (generate_contextual_questions req w).1 = Returns result →
  take (length validated_targets) (final_questions result)
  = take (num_questions req) validated_targets.
Proof.
  intros Htargets Hctx Hgen. unfold generate_contextual_questions. run_service.
  rewrite Htargets.
  destruct (generate_questions_with_llm _ w1) as [questions w2]. simpl in Hgen.
  apply falsy_cons in Hctx, Hgen. rewrite Hctx, Hgen. simpl.
  destruct (validate_and_accumulate req questions w2) as [[? ?] w3].
  destruct (semantic_gate req _ w3) as [tested w4].
  destruct (retry_loop req 0 tested w4) as [[rounds accumulated] w5].
  destruct (targeted_generation req accumulated w5) as [validated w6].
  simpl. intros [= <-]. simpl. apply include_targets_shape.
Qed.

(** X23.  When the first generation yields no question (the request fails,
    the response holds no array, or every candidate is dropped by the column
    check), the run returns the empty list and records no validation debug:
    the target questions that were validated are not returned. *)
Theorem no_candidates_no_questions req w validated_targets target_debug w1 :
  validate_targets req w = (Returns (validated_targets, target_debug), w1) →
  (generate_questions_with_llm (rich_table_contexts req) w1).1 = [] →
  (generate_contextual_questions req w).1
  = Returns (mkResult [] None target_debug).
Proof.
  intros Htargets Hgen. unfold generate_contextual_questions. run_service.
  rewrite Htargets.
  destruct (generate_questions_with_llm _ w1) as [questions w2]. simpl in Hgen.
  subst questions. simpl. rewrite andb_false_r. simpl. by rewrite take_nil.
Qed.

(** X24.  Without a schema context a run validates nothing: it sends one
    generation request, calls neither the validator nor the semantic tester,
    and returns the first [num_questions] generated questions, tagged with
    their source, target questions left aside. *)
Theorem run_without_context req w :
  rich_table_contexts req = [] →
  generate_contextual_questions req w
  = (Returns
       (mkResult
          (take (num_questions req)
                match (cortex_complete_questions w).1 with
                | GenQuestions questions_data => map set_source_ai questions_data
                | _ => []
                end)
          None None),
     (cortex_complete_questions w).2)
  ∧ validator_replies (generate_contextual_questions req w).2
    = validator_replies w
  ∧ analyst_replies (generate_contextual_questions req w).2
    = analyst_replies w.
Proof.
  intros Hctx.
  assert (Hrun : generate_contextual_questions req w
                 = (Returns
                      (mkResult
                         (take (num_questions req)
                               match (cortex_complete_questions w).1 with
                               | GenQuestions questions_data =>
                                   map set_source_ai questions_data
                               | _ => []
                               end)
                         None None),
                    (cortex_complete_questions w).2)).
  { unfold generate_contextual_questions, validate_targets,
      generate_questions_with_llm. rewrite Hctx. run_service.
    destruct (cortex_complete_questions w) as [[| |questions_data] w1]; done. }
  rewrite Hrun. split; [done|]. simpl. unfold cortex_complete_questions.
  by destruct (generator_replies w).
Qed.

End run_more.

Lemma generate_contextual_questions_at_most_witness :
  ∃ result,
    (generate_contextual_questions (H := Scenario.library) Cases.one_target
       Cases.target_then_generated).1 = Returns result
    ∧ length (final_questions result) ≤ 2.
Proof.
  eexists. split; [reflexivity|].
  apply (generate_contextual_questions_at_most (H := Scenario.library)
           Cases.one_target Cases.target_then_generated).
  reflexivity.
Defined.

Lemma validated_targets_come_first_witness :
  ∃ result,
    (generate_contextual_questions (H := Scenario.library) Cases.one_target
       Cases.target_then_generated).1 = Returns result
    ∧ map text (take 1 (final_questions result)) = ["What is the total revenue?"].
Proof.
  eexists. split; [reflexivity|].
  epose proof (validated_targets_come_first (H := Scenario.library)
                 Cases.one_target Cases.target_then_generated _ _ _ _
                 eq_refl _ _ eq_refl) as Hfirst.
  exact (f_equal (map text) Hfirst).
  Unshelve.
  - done.
  - done.
Defined.

Lemma no_candidates_no_questions_witness :
  ∃ result,
    (generate_contextual_questions (H := Scenario.library) Cases.one_target
       Cases.target_accepted).1 = Returns result
    ∧ final_questions result = []
    ∧ question_validation_debug result = None.
Proof.
  eexists. split.
  - refine (no_candidates_no_questions (H := Scenario.library) Cases.one_target
              Cases.target_accepted _ _ _ eq_refl eq_refl).
  - split; reflexivity.
Defined.

Lemma run_without_context_witness :
  (generate_contextual_questions (H := Scenario.library) Scenario.no_context
     Scenario.repeats).1
  = Returns (mkResult
               [mkQuestion "top regions" (Some "basic") (Some "analytics") None
                           (Some "ai") None;
                mkQuestion "top regions" (Some "basic") (Some "analytics") None
                           (Some "ai") None]
               None None).
Proof.
  destruct (run_without_context (H := Scenario.library) Scenario.no_context
              Scenario.repeats) as (Hrun & _).
  - reflexivity.
  - rewrite Hrun. reflexivity.
Defined.

(** ** The display *)

(** X25.  The display lists the questions of the three known difficulties
    only: a question whose difficulty is missing or is another word leaves no
    trace in the text. *)
Theorem format_questions_for_display_known questions :
  format_questions_for_display questions
  = format_questions_for_display (filter known_difficulty questions).
Proof.
  unfold format_questions_for_display.
  rewrite !list_filter_filter_l; [done|..];
    intros q Hq; unfold known_difficulty; auto.
Qed.

(** ** The schema alignment report *)

Lemma alignment_step_spec actual_columns report ctx :
  (perfect_match report = true ↔ total_discrepancies report = 0) →
  (perfect_match report = true ↔ tables report = ∅) →
  let report' := alignment_step actual_columns report ctx in
  (perfect_match report' = true ↔ total_discrepancies report' = 0)
  ∧ (perfect_match report' = true ↔ tables report' = ∅)
  ∧ (perfect_match report' = true
     ↔ perfect_match report = true
       ∧ expected_columns ctx = actual_column_set actual_columns ctx).
Proof.
  intros Htotal Htables. unfold alignment_step.
  set (expected := expected_columns ctx).
  set (actual := actual_column_set actual_columns ctx).
  destruct (bool_decide (expected ∖ actual ≠ ∅)) eqn:Hmissing;
    destruct (bool_decide (actual ∖ expected ≠ ∅)) eqn:Hextra; simpl;
    try apply bool_decide_eq_true in Hmissing;
    try apply bool_decide_eq_true in Hextra;
    try apply bool_decide_eq_false in Hmissing;
    try apply bool_decide_eq_false in Hextra.
  4: { assert (Heq : expected = actual).
       { apply dec_stable in Hmissing, Hextra. clear -Hmissing Hextra.
         apply set_eq. intros x.
         assert (Hm : x ∉ expected ∖ actual)
           by (rewrite Hmissing; apply not_elem_of_empty).
         assert (He : x ∉ actual ∖ expected)
           by (rewrite Hextra; apply not_elem_of_empty).
         rewrite elem_of_difference in Hm, He.
         destruct (decide (x ∈ expected)), (decide (x ∈ actual)); tauto. }
       split; [done|]. split; [done|]. tauto. }
  all: assert (Hsize : 0 < size (expected ∖ actual) + size (actual ∖ expected))
         by (first [ assert (size (expected ∖ actual) ≠ 0)
                       by (apply size_non_empty_iff; by intros ?%leibniz_equiv)
                   | assert (size (actual ∖ expected) ≠ 0)
                       by (apply size_non_empty_iff; by intros ?%leibniz_equiv) ];
             lia).
  all: repeat split; try done; try lia.
  all: try (intros Hempty; by apply insert_non_empty in Hempty).
  all: intros [_ Heq]; exfalso; rewrite Heq, difference_diag_L in *; done.
Qed.

Lemma alignment_fold_spec actual_columns contexts report :
  (perfect_match report = true ↔ total_discrepancies report = 0) →
  (perfect_match report = true ↔ tables report = ∅) →
  let report' := foldl (alignment_step actual_columns) report contexts in
  (perfect_match report' = true ↔ total_discrepancies report' = 0)
  ∧ (perfect_match report' = true ↔ tables report' = ∅)
  ∧ (perfect_match report' = true
     ↔ perfect_match report = true
       ∧ Forall (λ ctx, expected_columns ctx
                        = actual_column_set actual_columns ctx) contexts).
Proof.
  revert report. induction contexts as [|ctx contexts IH];
    intros report Htotal Htables; simpl.
  - split; [done|]. split; [done|].
    split; [intros; split; [done|constructor]|by intros [? _]].
  - destruct (alignment_step_spec actual_columns report ctx Htotal Htables)
      as (Htotal' & Htables' & Hstep).
    destruct (IH _ Htotal' Htables') as (Ht & Hb & Hp).
    split; [done|]. split; [done|]. split.
    + intros Hperfect. apply Hp in Hperfect as [Hperfect Hall].
      apply Hstep in Hperfect as [? ?]. split; [done|]. by constructor.
    + intros [Hperfect [Hctx Hall]%Forall_cons]. apply Hp. split; [|done].
      apply Hstep. done.
Qed.

(** X26.  The alignment report says [perfect_match] exactly when, for every
    table, the upper-cased expected column names and the actual column names
    are the same set; and it is consistent: [perfect_match] holds exactly
    when [total_discrepancies] is 0 and exactly when no table is listed. *)
Theorem build_schema_alignment_report_perfect expected_contexts actual_columns :
  let report := build_schema_alignment_report expected_contexts actual_columns in
  (perfect_match report = true
   ↔ Forall (λ ctx, expected_columns ctx
                    = actual_column_set actual_columns ctx) expected_contexts)
  ∧ (perfect_match report = true ↔ total_discrepancies report = 0)
  ∧ (perfect_match report = true ↔ tables report = ∅).
Proof.
  unfold build_schema_alignment_report.
  destruct (alignment_fold_spec actual_columns expected_contexts
              (mkReport true ∅ 0)) as (Ht & Hb & Hp); [done|done|].
  split; [|done]. split.
  - intros Hperfect. by apply Hp in Hperfect as [_ ?].
  - intros Hall. apply Hp. done.
Qed.

(** ** Strings *)

Lemma chars_inj s t : list_ascii_of_string s = list_ascii_of_string t → s = t.
Proof.
  intros Heq. rewrite <- (string_of_list_ascii_of_string s),
    <- (string_of_list_ascii_of_string t). by rewrite Heq.
Qed.

Lemma chars_app s t :
  list_ascii_of_string (s +:+ t) = list_ascii_of_string s ++ list_ascii_of_string t.
Proof. induction s as [|c s IH]; simpl; [done|]. by rewrite IH. Qed.

Lemma chars_rev_app s t :
  list_ascii_of_string (String.rev_app s t)
  = rev (list_ascii_of_string s) ++ list_ascii_of_string t.
Proof.
  revert t. induction s as [|c s IH]; intros t; simpl; [done|].
  rewrite IH. simpl. by rewrite <- app_assoc.
Qed.

Lemma chars_rev s :
  list_ascii_of_string (String.rev s) = rev (list_ascii_of_string s).
Proof. unfold String.rev. by rewrite chars_rev_app, app_nil_r. Qed.

Lemma string_rev_involutive s : String.rev (String.rev s) = s.
Proof. apply chars_inj. by rewrite !chars_rev, rev_involutive. Qed.

Lemma string_rev_app s t : String.rev (s +:+ t) = String.rev t +:+ String.rev s.
Proof. apply chars_inj. by rewrite chars_app, !chars_rev, chars_app, rev_app_distr. Qed.

Lemma chars_str_drop n s :
  list_ascii_of_string (Py.str_drop n s) = drop n (list_ascii_of_string s).
Proof.
  revert s. induction n as [|n IH]; intros [|c s]; simpl; done.
Qed.

Lemma chars_str_drop_end n s :
  list_ascii_of_string (Py.str_drop_end n s)
  = rev (drop n (rev (list_ascii_of_string s))).
Proof. unfold Py.str_drop_end. by rewrite chars_rev, chars_str_drop, chars_rev. Qed.

Lemma chars_lstrip s :
  list_ascii_of_string (Py.lstrip s) `suffix_of` list_ascii_of_string s.
Proof.
  induction s as [|c s IH]; simpl; [done|].
  destruct (Py.is_space c); [by apply suffix_cons_r|done].
Qed.

Lemma lstrip_full s :
  length (list_ascii_of_string s) ≤ length (list_ascii_of_string (Py.lstrip s)) →
  Py.lstrip s = s.
Proof.
  destruct s as [|c s]; simpl; [done|].
  destruct (Py.is_space c); [|done].
  pose proof (suffix_length _ _ (chars_lstrip s)). lia.
Qed.

Lemma chars_rstrip_length s :
  length (list_ascii_of_string (Py.rstrip s)) ≤ length (list_ascii_of_string s).
Proof.
  unfold Py.rstrip. rewrite chars_rev, length_rev.
  etransitivity; [apply suffix_length, chars_lstrip|].
  by rewrite chars_rev, length_rev.
Qed.

(** A text without surrounding whitespace is left alone by both halves of
    [strip]. *)
Lemma strip_fixed s :
  Py.strip s = s → Py.lstrip s = s ∧ Py.rstrip s = s.
Proof.
  intros Hstrip. unfold Py.strip in Hstrip.
  assert (Hl : Py.lstrip s = s).
  { apply lstrip_full. rewrite <- Hstrip at 1. apply chars_rstrip_length. }
  by rewrite Hl in Hstrip.
Qed.

Lemma lstrip_app s t : s ≠ "" → Py.lstrip s = s → Py.lstrip (s +:+ t) = s +:+ t.
Proof.
  destruct s as [|c s]; [done|]. simpl. intros _.
  destruct (Py.is_space c) eqn:Hc; [|done].
  intros Heq. pose proof (suffix_length _ _ (chars_lstrip s)) as Hlen.
  rewrite Heq in Hlen. simpl in Hlen. lia.
Qed.

Lemma string_app_assoc s t u : s +:+ (t +:+ u) = (s +:+ t) +:+ u.
Proof. apply chars_inj. by rewrite !chars_app, app_assoc. Qed.

Lemma rstrip_app s t : t ≠ "" → Py.rstrip t = t → Py.rstrip (s +:+ t) = s +:+ t.
Proof.
  intros Hne Hr. unfold Py.rstrip in *. rewrite string_rev_app.
  assert (Hl : Py.lstrip (String.rev t) = String.rev t).
  { rewrite <- Hr at 2. by rewrite string_rev_involutive. }
  rewrite lstrip_app; [|by intros Hrev; apply Hne;
                           rewrite <- (string_rev_involutive t), Hrev|done].
  by rewrite <- string_rev_app, string_rev_involutive.
Qed.

(** ** Markdown fences around the verdict *)

(** X27.  A verdict wrapped in a markdown fence, tagged [json] or not, is
    unwrapped before it is parsed: for a body of ASCII characters without
    surrounding whitespace the cleaned response is the body, and a bare body
    that neither starts nor ends with a fence is left as it is. *)
Theorem clean_response_unwraps body :
  ascii_text body →
  Py.strip body = body →
  clean_response (fenced "json" body) = body
  ∧ clean_response (fenced "" body) = body
  ∧ (Py.startswith "```" body = false → Py.endswith "```" body = false →
     clean_response body = body).
Proof.
  intros _ Hstrip. destruct (strip_fixed body Hstrip) as [Hl Hr].
  assert (Hinner : Py.strip (nl +:+ body +:+ nl) = body).
  { unfold Py.strip. change (Py.lstrip (nl +:+ body +:+ nl))
      with (Py.lstrip (body +:+ nl)).
    destruct (decide (body = "")) as [->|Hne]; [done|].
    rewrite lstrip_app by done. unfold Py.rstrip.
    rewrite string_rev_app. change (String.rev nl) with nl.
    change (Py.lstrip (nl +:+ String.rev body))
      with (Py.lstrip (String.rev body)).
    exact Hr. }
  assert (Hrest : ∀ rest,
            rest = nl +:+ body +:+ nl +:+ "```" →
            Py.strip
              (if Py.endswith "```" (if Py.startswith "```" rest
                                     then Py.str_drop 3 rest else rest)
               then Py.str_drop_end 3 (if Py.startswith "```" rest
                                       then Py.str_drop 3 rest else rest)
               else (if Py.startswith "```" rest
                     then Py.str_drop 3 rest else rest))
            = body).
  { intros rest ->.
    change (Py.startswith "```" (nl +:+ body +:+ nl +:+ "```")) with false.
    cbv iota.
    assert (Hrev : String.rev (nl +:+ body +:+ nl +:+ "```")
                   = "```" +:+ String.rev (nl +:+ body +:+ nl)).
    { change (nl +:+ body +:+ nl +:+ "```")
        with (nl +:+ (body +:+ (nl +:+ "```"))).
      rewrite !string_rev_app. change (String.rev "```") with "```".
      change (String.rev nl) with nl.
      apply chars_inj. rewrite !chars_app. by rewrite <- !app_assoc. }
    unfold Py.endswith, Py.str_drop_end. rewrite Hrev.
    change (String.rev "```") with "```". simpl Py.startswith. cbv iota.
    simpl Py.str_drop.
    change ("" +:+ String.rev (nl +:+ body +:+ nl))
      with (String.rev (nl +:+ body +:+ nl)).
    rewrite string_rev_involutive. exact Hinner. }
  assert (Hfence : ∀ tag, Py.strip (fenced tag body) = fenced tag body).
  { intros tag. unfold Py.strip. change (Py.lstrip (fenced tag body))
      with (fenced tag body).
    unfold fenced. rewrite !string_app_assoc. by apply rstrip_app. }
  repeat split.
  - unfold clean_response. rewrite Hfence.
    change (Py.startswith "```json" (fenced "json" body)) with true. cbv iota.
    change (Py.str_drop 7 (fenced "json" body))
      with (nl +:+ body +:+ nl +:+ "```").
    by apply Hrest.
  - unfold clean_response. rewrite Hfence.
    change (Py.startswith "```json" (fenced "" body)) with false. cbv iota.
    change (Py.startswith "```" (fenced "" body)) with true. cbv iota.
    change (Py.str_drop 3 (fenced "" body)) with (nl +:+ body +:+ nl +:+ "```").
    change (Py.endswith "```" (nl +:+ body +:+ nl +:+ "```"))
      with (Py.endswith "```"
              (if Py.startswith "```" (nl +:+ body +:+ nl +:+ "```")
               then Py.str_drop 3 (nl +:+ body +:+ nl +:+ "```")
               else nl +:+ body +:+ nl +:+ "```")).
    change (Py.str_drop_end 3 (nl +:+ body +:+ nl +:+ "```"))
      with (Py.str_drop_end 3
              (if Py.startswith "```" (nl +:+ body +:+ nl +:+ "```")
               then Py.str_drop 3 (nl +:+ body +:+ nl +:+ "```")
               else nl +:+ body +:+ nl +:+ "```")).
    by apply Hrest.
  - intros Hstart Hend. unfold clean_response. rewrite Hstrip.
    assert (Hjson : Py.startswith "```json" body = false).
    { destruct body as [|a [|b [|c body]]]; try done. simpl in *.
      destruct (bool_decide (_ = a)); [|done].
      destruct (bool_decide (_ = b)); [|done].
      destruct (bool_decide (_ = c)); done. }
    by rewrite Hjson, Hstart, Hend.
Qed.

Lemma clean_response_unwraps_witness :
  clean_response (fenced "json" (Scenario.verdict_text "1, 2"))
  = Scenario.verdict_text "1, 2".
Proof.
  destruct (clean_response_unwraps (Scenario.verdict_text "1, 2")) as [Hjson _].
  - compute_done.
  - reflexivity.
  - exact Hjson.
Defined.

(** ** Field names *)

Lemma chars_upper s :
  list_ascii_of_string (Py.upper s) = map Py.upper_ascii (list_ascii_of_string s).
Proof. induction s as [|c s IH]; simpl; [done|]. by rewrite IH. Qed.

Lemma upper_ascii_shape c :
  Py.is_space c = false →
  Py.is_space (Py.upper_ascii c) = false ∧ is_lower (Py.upper_ascii c) = false.
Proof.
  destruct c as [[] [] [] [] [] [] [] []]; intros Hc; try done; by vm_compute.
Qed.

Lemma sub_whitespace_no_space in_run s :
  Forall (λ c, Py.is_space c = false)
         (list_ascii_of_string (Field.sub_whitespace in_run s)).
Proof.
  revert in_run. induction s as [|c s IH]; intros in_run; simpl; [done|].
  destruct (Py.is_space c) eqn:Hc.
  - destruct in_run; [apply IH|]. simpl. constructor; [done|apply IH].
  - simpl. constructor; [done|apply IH].
Qed.

Lemma Forall_str_drop_end (P : ascii → Prop) n s :
  Forall P (list_ascii_of_string s) →
  Forall P (list_ascii_of_string (Py.str_drop_end n s)).
Proof.
  intros Hs. rewrite chars_str_drop_end.
  apply Forall_rev, Forall_drop, Forall_rev. done.
Qed.

Lemma singular_no_space s :
  Forall (λ c, Py.is_space c = false) (list_ascii_of_string s) →
  Forall (λ c, Py.is_space c = false) (list_ascii_of_string (Field.singular s)).
Proof.
  intros Hs. unfold Field.singular.
  repeat match goal with
         | |- context [if ?c then _ else _] => destruct c
         end;
    rewrite ?chars_app; try apply Forall_app_2;
    try apply Forall_str_drop_end; try done; by repeat constructor.
Qed.

(** X28.  A normalised field name holds no whitespace and no lower-case
    letter, whatever text it is made from. *)
Theorem normalize_field_name_to_sql_shape field_name :
  Forall (λ c, Py.is_space c = false ∧ is_lower c = false)
         (list_ascii_of_string (normalize_field_name_to_sql field_name)).
Proof.
  unfold normalize_field_name_to_sql. rewrite chars_upper.
  apply Forall_fmap. eapply Forall_impl.
  - apply singular_no_space, sub_whitespace_no_space.
  - intros c Hc. by apply upper_ascii_shape.
Qed.

Lemma singular_keeps s :
  Py.endswith "s" s = false ∨ Py.endswith "ss" s = true →
  Field.singular s = s.
Proof.
  unfold Field.singular, Field.ends_in_single_s, Py.endswith.
  change (String.rev "s") with "s". change (String.rev "ss") with "ss".
  change (String.rev "ies") with "sei". change (String.rev "ses") with "ses".
  change (String.rev "ches") with "sehc". change (String.rev "xes") with "sex".
  destruct (String.rev s) as [|a [|b r]]; simpl; [done| |].
  - destruct (bool_decide ("s"%char = a)); simpl; [|done].
    by intros [? | ?].
  - destruct (decide (a = "s"%char)) as [-> | Ha].
    + rewrite !(bool_decide_eq_true_2 ("s"%char = "s"%char)) by done. simpl.
      destruct (decide (b = "s"%char)) as [-> | Hb].
      * rewrite !(bool_decide_eq_true_2 ("s"%char = "s"%char)) by done. done.
      * rewrite (bool_decide_eq_false_2 ("s"%char = b)) by done.
        by intros [? | ?].
    + rewrite !(bool_decide_eq_false_2 ("s"%char = a)) by done.
      rewrite (bool_decide_eq_false_2 (a = "s"%char)) by done. done.
Qed.

(** X29.  A field name of ASCII characters that, once lower-cased, trimmed
    and underscored, does not end in [s], or ends in [ss], loses no letter:
    the result is that text in upper case. *)
Theorem normalize_field_name_to_sql_keeps field_name :
  ascii_text field_name →
  let cleaned :=
    Field.sub_whitespace false (Py.strip (Field.lower field_name)) in
  Py.endswith "s" cleaned = false ∨ Py.endswith "ss" cleaned = true →
  normalize_field_name_to_sql field_name = Py.upper cleaned.
Proof.
  intros _ cleaned Hend. unfold normalize_field_name_to_sql. fold cleaned.
  by rewrite singular_keeps.
Qed.

Lemma normalize_field_name_to_sql_keeps_witness :
  normalize_field_name_to_sql " Shipping  Address " = "SHIPPING_ADDRESS".
Proof.
  rewrite (normalize_field_name_to_sql_keeps " Shipping  Address ").
  - reflexivity.
  - compute_done.
  - right. reflexivity.
Defined.
